(** * Crypto_api.py: the crypto.news scraper, embedded and verified

    The development follows [scrape_crypto_news] of [src/Crypto_api.py]:
    step 1 locates the "latest" region of the homepage and collects article
    URLs from its anchors, step 2 fetches every article and extracts its
    fields, turning a failure into a placeholder record.

    Layout: Python strings, the BeautifulSoup tree and its queries, the
    world (network and clock) as a small state-and-exception monad, the
    function itself, and then the theorems. *)

From Stdlib Require Import ZArith Ascii String List Bool Lia DecimalString.
From stdpp Require Import base option list strings gmap.

Local Open Scope string_scope.
Local Open Scope Z_scope.

(** ** Python [str] operations

    A [str] is modelled as a Rocq [string]; a character is a code point
    below 256 (the Latin-1 range of Python's [str]), on which [isspace]
    and [lower] below agree with Python. *)

Module PyStr.

Definition code (c : ascii) : N := N_of_ascii c.

(** [str.isspace] on one character: TAB..CR, FS..US, space, NEL, NBSP. *)
Definition isspace (c : ascii) : bool :=
  let n := code c in
  ((9 <=? n) && (n <=? 13) || (28 <=? n) && (n <=? 32)
   || (n =? 133) || (n =? 160))%N.

(** [str.lower] on one character: A-Z and the Latin-1 capitals
    (0xC0-0xDE without the multiplication sign 0xD7) move up by 32. *)
Definition lower_char (c : ascii) : ascii :=
  let n := code c in
  if ((65 <=? n) && (n <=? 90)
      || (192 <=? n) && (n <=? 222) && negb (n =? 215))%N
  then ascii_of_N (n + 32) else c.

Fixpoint lower (s : string) : string :=
  match s with
  | EmptyString => EmptyString
  | String c s' => String (lower_char c) (lower s')
  end.

Fixpoint lstrip (s : string) : string :=
  match s with
  | EmptyString => EmptyString
  | String c s' => if isspace c then lstrip s' else s
  end.

Fixpoint rstrip (s : string) : string :=
  match s with
  | EmptyString => EmptyString
  | String c s' =>
      match rstrip s' with
      | EmptyString => if isspace c then EmptyString else String c EmptyString
      | r => String c r
      end
  end.

(** [s.strip()] *)
Definition strip (s : string) : string := rstrip (lstrip s).

(** [s.startswith(p)] *)
Fixpoint startswith (p s : string) : bool :=
  match p, s with
  | EmptyString, _ => true
  | String a p', String b s' => if Ascii.eqb a b then startswith p' s' else false
  | String _ _, EmptyString => false
  end.

(** [x in s] on strings: [x] occurs in [s] as a substring. *)
Fixpoint contains (x s : string) : bool :=
  startswith x s
  || match s with
     | EmptyString => false
     | String _ s' => contains x s'
     end.

(** [s.count(c)] for a one-character pattern [c]. *)
Fixpoint count (c : ascii) (s : string) : Z :=
  match s with
  | EmptyString => 0
  | String a s' => (if Ascii.eqb a c then 1 else 0) + count c s'
  end.

(** [len(s)] *)
Definition len (s : string) : Z := Z.of_nat (String.length s).

(** [s[:n]] for a literal [n >= 0]. *)
Fixpoint slice_to (n : nat) (s : string) : string :=
  match n, s with
  | S n', String c s' => String c (slice_to n' s')
  | _, _ => EmptyString
  end.

(** [sep.join(parts)] *)
Fixpoint join (sep : string) (parts : list string) : string :=
  match parts with
  | [] => EmptyString
  | [p] => p
  | p :: rest => p ++ sep ++ join sep rest
  end.

(** The non-blank runs of [s], as the pattern [\S+] finds them. *)
Fixpoint fields_aux (cur : string) (s : string) : list string :=
  match s with
  | EmptyString => match cur with EmptyString => [] | _ => [cur] end
  | String c s' =>
      if isspace c
      then match cur with
           | EmptyString => fields_aux EmptyString s'
           | _ => cur :: fields_aux EmptyString s'
           end
      else fields_aux (cur ++ String c EmptyString) s'
  end.

Definition fields (s : string) : list string := fields_aux EmptyString s.

(** Truthiness of a [str]: non-empty. *)
Definition truthy (s : string) : bool :=
  match s with EmptyString => false | _ => true end.

(** [zfill k n]: the last [k] decimal digits of [n], padded with zeros;
    the [%04d], [%02d] and [%06d] of [isoformat], exact on the ranges the
    fields of a [datetime] take. *)
Definition digit (n : nat) : ascii := ascii_of_nat (48 + n mod 10).

Fixpoint zfill (k : nat) (n : nat) : string :=
  match k with
  | O => EmptyString
  | S k' => zfill k' (n / 10) ++ String (digit n) EmptyString
  end.

End PyStr.

(** ** The BeautifulSoup tree

    [BeautifulSoup(markup, 'html.parser')] is a library call: the tree it
    builds is an input of this development.  A node is a string of the
    document or a tag with its attribute dictionary and its contents.
    [attrs] holds each attribute's text as the markup gives it; the
    multi-valued [class] is split on demand, as the library does on
    parsing. *)

Module Bs4.

#[local] Set Warnings "-register-all".

Inductive node : Type :=
| NavigableString (s : string)
| Tag (name : string) (attrs : gmap string string) (contents : list node).

(** The root object of a parsed document. *)
Definition BeautifulSoup (contents : list node) : node :=
  Tag "[document]" ∅ contents.

(** Every node below [p] in document order, each with the node it hangs
    from: [(x.parent, x)] for [x] in [p.descendants]. *)
Fixpoint descendants_with_parent (p : node) : list (node * node) :=
  match p with
  | NavigableString _ => []
  | Tag _ _ cs => flat_map (fun c => (p, c) :: descendants_with_parent c) cs
  end.

Definition descendants (n : node) : list node :=
  (descendants_with_parent n).*2.

Definition name_in (names : list string) (n : node) : bool :=
  match n with
  | NavigableString _ => false
  | Tag nm _ _ => bool_decide (nm ∈ names)
  end.

(** [tag.get(key)] *)
Definition get (key : string) (n : node) : option string :=
  match n with
  | NavigableString _ => None
  | Tag _ attrs _ => attrs !! key
  end.

(** [tag.find_all(names)], [tag.find_all(names, attrs)] with the
    attribute test [p]. *)
Definition find_all (names : list string) (p : node -> bool) (n : node)
  : list node :=
  List.filter (fun x => name_in names x && p x) (descendants n).

(** [tag.find(...)] is [find_all(..., limit=1)]: the first result or None. *)
Definition find (names : list string) (p : node -> bool) (n : node)
  : option node :=
  head (find_all names p n).

Definition any_attrs (_ : node) : bool := true.

(** The strings [get_text] sees below a tag, in document order. *)
Definition all_strings (n : node) : list string :=
  omap (fun x => match x with NavigableString s => Some s | Tag _ _ _ => None end)
       (descendants n).

(** [tag.get_text()] *)
Definition get_text (n : node) : string := PyStr.join "" (all_strings n).

(** [tag.get_text(strip=True)]: every string is stripped, those left
    empty are dropped, the rest are joined without a separator. *)
Definition get_text_strip (n : node) : string :=
  PyStr.join ""
    (List.filter PyStr.truthy (map PyStr.strip (all_strings n))).

(** [class_=f]: the test [f] is tried on every value of the class
    attribute, then on the values joined by a space; a tag without the
    attribute is tested on [None]. *)
Definition class_matches (f : option string -> bool) (n : node) : bool :=
  match get "class" n with
  | None => f None
  | Some v =>
      let vs := PyStr.fields v in
      existsb (fun x => f (Some x)) vs || f (Some (PyStr.join " " vs))
  end.

(** An element as a cursor into the tree: [find_all] results that keep
    what [find_parent] and [find_next] read from the cursor, the parent
    node and the nodes parsed after the element ([next_elements]). *)
Record cursor : Type :=
  { element : node; parent : node; next_elements : list node }.

Fixpoint cursors (l : list (node * node)) : list cursor :=
  match l with
  | [] => []
  | (p, x) :: rest =>
      {| element := x; parent := p; next_elements := rest.*2 |} :: cursors rest
  end.

Definition find_all_cursors (names : list string) (n : node) : list cursor :=
  List.filter (fun c => name_in names (element c))
              (cursors (descendants_with_parent n)).

(** [tag.find_parent()] *)
Definition find_parent (c : cursor) : node := parent c.

(** [tag.find_next(names)]: the first match among the nodes parsed after
    the tag, its own descendants included. *)
Definition find_next (names : list string) (c : cursor) : option node :=
  head (List.filter (name_in names) (next_elements c)).

End Bs4.

Import Bs4.

(** ** Exceptions, the network and the clock

    [requests.get] and [datetime.now] are the function's two effects.  The
    world answers the [n]-th effect of a run; a fetch either raises, with
    the text [str(e)] of its exception, or gives the parsed document. *)

Inductive outcome (A : Type) : Type :=
| Returned (a : A)
| Raised (e : string).
Arguments Returned {A} a.
Arguments Raised {A} e.

Record datetime : Type :=
  { year : nat; month : nat; day : nat;
    hour : nat; minute : nat; second : nat; microsecond : nat }.

(** [d.isoformat()] of a naive [datetime]. *)
Definition isoformat (d : datetime) : string :=
  PyStr.zfill 4 (year d) ++ "-" ++ PyStr.zfill 2 (month d) ++ "-"
  ++ PyStr.zfill 2 (day d) ++ "T" ++ PyStr.zfill 2 (hour d) ++ ":"
  ++ PyStr.zfill 2 (minute d) ++ ":" ++ PyStr.zfill 2 (second d)
  ++ match microsecond d with
     | O => ""
     | us => "." ++ PyStr.zfill 6 us
     end.

Record world : Type :=
  { fetch : nat -> string -> outcome (list node);
    clock : nat -> datetime }.

(** A computation reads the count of effects so far, returns or raises,
    and leaves the new count. *)
Definition M (A : Type) : Type := nat -> outcome A * nat.

Definition ret {A} (a : A) : M A := fun t => (Returned a, t).
Definition raise {A} (e : string) : M A := fun t => (Raised e, t).
Definition bind {A B} (m : M A) (k : A -> M B) : M B :=
  fun t => match m t with
           | (Returned a, t') => k a t'
           | (Raised e, t') => (Raised e, t')
           end.
(** [try: m  except Exception as e: h e] *)
Definition try_except {A} (m : M A) (h : string -> M A) : M A :=
  fun t => match m t with
           | (Returned a, t') => (Returned a, t')
           | (Raised e, t') => h e t'
           end.

Notation "x <- m ;; k" := (bind m (fun x => k))
  (at level 100, m at next level, right associativity).

(** ** [scrape_crypto_news] *)

(** The dictionary built for one article (the fields of [CryptoArticle]). *)
Record article : Type :=
  { url : string; title : string; summary : string;
    content : string; date : string; scraped_at : string }.

Definition base_url : string := "https://crypto.news".

Definition newline : string := String "010"%char EmptyString.

(** *** Step 1, the pure part: region and links *)

(** [h.get_text().strip().lower() == 'latest'] *)
Definition text_is_latest (h : node) : bool :=
  String.eqb (PyStr.lower (PyStr.strip (get_text h))) "latest".

(** ['latest' in h.get_text().lower()] *)
Definition text_has_latest (h : node) : bool :=
  PyStr.contains "latest" (PyStr.lower (get_text h)).

(** Strategy 1: the loop over [soup.find_all(['h1','h2','h3','div'])],
    left at the first heading whose text is "latest". *)
Fixpoint strategy1_loop (headings : list cursor) : option node :=
  match headings with
  | [] => None
  | heading :: rest =>
      if text_is_latest (element heading)
      then Some (find_parent heading)
      else strategy1_loop rest
  end.

Definition strategy1 (soup : node) : option node :=
  strategy1_loop (find_all_cursors ["h1"; "h2"; "h3"; "div"] soup).

(** [lambda x: x and 'latest' in x.lower()] *)
Definition class_has_latest (x : option string) : bool :=
  match x with
  | None => false
  | Some c => PyStr.truthy c && PyStr.contains "latest" (PyStr.lower c)
  end.

(** Strategy 2 *)
Definition strategy2 (soup : node) : option node :=
  find ["section"; "div"] (class_matches class_has_latest) soup.

(** Strategy 3: the loop over [soup.find_all(['h1','h2','h3'])], left at
    the first heading that mentions "latest", whatever [find_next] gives. *)
Fixpoint strategy3_loop (elems : list cursor) : option node :=
  match elems with
  | [] => None
  | elem :: rest =>
      if text_has_latest (element elem)
      then find_next ["section"; "div"; "article"] elem
      else strategy3_loop rest
  end.

Definition strategy3 (soup : node) : option node :=
  strategy3_loop (find_all_cursors ["h1"; "h2"; "h3"] soup).

(** The chain of [if not latest_section:] tests.  A tag is always true in
    Python, so each test asks whether the variable is still [None]. *)
Definition latest_section_with
    (second third : node -> option node) (soup : node) : option node :=
  match strategy1 soup with
  | Some sec => Some sec
  | None =>
      match second soup with
      | Some sec => Some sec
      | None => third soup
      end
  end.

Definition find_latest_section : node -> option node :=
  latest_section_with strategy2 strategy3.

Definition excluded : list string :=
  ["/category/"; "/tag/"; "/author/"; "#";
   "/buy-crypto/"; "/events/"; "/meme-coins/"].

(** Build full URL *)
Definition full_url (href : string) : string :=
  if PyStr.startswith "/" href then base_url ++ href else href.

(** Filter valid article URLs *)
Definition valid_article_url (u : string) (article_urls : list string) : bool :=
  PyStr.contains base_url u
  && (4 <=? PyStr.count "/" u)
  && negb (bool_decide (u ∈ article_urls))
  && negb (existsb (fun x => PyStr.contains x u) excluded).

(** [link['href'] for link in latest_section.find_all('a', href=True)] *)
Definition anchor_hrefs (latest_section : node) : list string :=
  omap (get "href") (find_all ["a"] any_attrs latest_section).

(** The loop over the links.  It gives [article_urls] and the links it
    never reached: all of them were visited unless [break] was taken. *)
Fixpoint links_loop (limit : Z) (hrefs : list string) (article_urls : list string)
  : list string * list string :=
  match hrefs with
  | [] => (article_urls, [])
  | href :: rest =>
      let u := full_url href in
      if valid_article_url u article_urls then
        let article_urls := (article_urls ++ [u])%list in
        if Z.of_nat (length article_urls) =? limit
        then (article_urls, rest)
        else links_loop limit rest article_urls
      else links_loop limit rest article_urls
  end.

(** [article_urls] when the [try] block of step 1 is left, given the
    parsed homepage. *)
Definition discover (soup : node) (limit : Z) : list string :=
  match find_latest_section soup with
  | Some latest_section => (links_loop limit (anchor_hrefs latest_section) []).1
  | None => []
  end.

(** *** Step 2, the pure part: the fields of one article *)

Definition extract_title (soup : node) : string :=
  match find ["h1"] any_attrs soup with
  | Some h1 => get_text_strip h1
  | None => ""
  end.

Definition content_parts (soup : node) : list string :=
  match find ["article"] any_attrs soup with
  | Some article_tag =>
      List.filter (fun text => 50 <? PyStr.len text)
                  (map get_text_strip (find_all ["p"] any_attrs article_tag))
  | None => []
  end.

Definition extract_content (soup : node) : string :=
  PyStr.join (newline ++ newline) (content_parts soup).

Definition extract_summary (soup : node) : string :=
  match find ["meta"] (fun n => bool_decide (get "name" n = Some "description")) soup with
  | Some meta_desc =>
      match get "content" meta_desc with
      | Some c => if PyStr.truthy c then c else ""
      | None => ""
      end
  | None => ""
  end.

Definition extract_date (soup : node) : string :=
  match find ["time"] any_attrs soup with
  | Some time_tag =>
      let d := default "" (get "datetime" time_tag) in
      if PyStr.truthy d then d else get_text_strip time_tag
  | None => ""
  end.

(** *** The function, with its effects *)

Section Scraper.

Variable w : world.

(** [BeautifulSoup(requests.get(u, ...).content, 'html.parser')] *)
Definition get_soup (u : string) : M node :=
  fun t => (match fetch w t u with
            | Returned cs => Returned (BeautifulSoup cs)
            | Raised e => Raised e
            end, S t).

(** [datetime.now().isoformat()] *)
Definition now_isoformat : M string :=
  fun t => (Returned (isoformat (clock w t)), S t).

(** Step 1: the [try] block and its handler. *)
Definition get_article_urls (limit : Z) : M (list string) :=
  try_except
    (soup <- get_soup base_url ;;
     ret (discover soup limit))
    (fun e => raise ("Network error: " ++ e)).

(** One turn of the loop of step 2: the [try] block and its handler. *)
Definition scrape_article (u : string) : M article :=
  try_except
    (soup <- get_soup u ;;
     let title := extract_title soup in
     let content := extract_content soup in
     let summary := extract_summary soup in
     let date := extract_date soup in
     now <- now_isoformat ;;
     ret {| url := u; title := title; summary := summary;
            content := content; date := date; scraped_at := now |})
    (fun e =>
       now <- now_isoformat ;;
       ret {| url := u; title := "Error fetching article"; summary := "";
              content := "Error: " ++ PyStr.slice_to 200 e; date := "";
              scraped_at := now |}).

Fixpoint articles_loop (article_urls : list string) (articles : list article)
  : M (list article) :=
  match article_urls with
  | [] => ret articles
  | u :: rest =>
      a <- scrape_article u ;;
      articles_loop rest (articles ++ [a])%list
  end.

Definition scrape_crypto_news (limit : Z) : M (list article) :=
  article_urls <- get_article_urls limit ;;
  match article_urls with
  | [] => raise "Could not find articles. Website structure may have changed."
  | _ =>
      articles <- articles_loop article_urls [] ;;
      match articles with
      | [] => raise "No articles were scraped successfully"
      | _ => ret articles
      end
  end.

End Scraper.

(** ** Sample documents *)

Module Samples.

Definition text (s : string) : node := NavigableString s.
Definition a (href : string) (label : string) : node :=
  Tag "a" {[ "href" := href ]} [text label].

(** Five article links and two category links under a class-marked div. *)
Definition latest_div : node :=
  Tag "div" {[ "class" := "box latest-articles" ]}
    [a "/news/one/" "1"; a "/category/x/y/" "c"; a "/news/two/" "2";
     a "/news/one/" "1 again"; a "/tag/z/w/" "t"; a "/news/three/" "3";
     a "/news/four/" "4"; a "https://crypto.news/news/five/" "5"].

Definition homepage : list node := [latest_div].

(** A "Latest" heading whose parent holds two article links. *)
Definition homepage_heading : list node :=
  [Tag "section" ∅
     [Tag "h2" ∅ [text "  LATEST "];
      a "/news/one/" "1"; a "/news/two/" "2"; a "/" "home"]].

(** No heading and no class mentions "latest". *)
Definition homepage_no_region : list node :=
  [Tag "p" ∅ [text "Welcome"; a "/news/one/" "1"]].

(** A region is found, but its only link is a category page. *)
Definition homepage_empty_region : list node :=
  [Tag "div" {[ "class" := "latest" ]} [a "/category/x/y/" "c"]].

(** A heading made of three strings. *)
Definition article_mixed_heading : list node :=
  [Tag "h1" ∅ [text "Bitcoin "; Tag "em" ∅ [text "Hits"]; text " $100K"]].

(** Only a heading that mentions "latest": the region is the section
    parsed after it. *)
Definition homepage_proximity : list node :=
  [Tag "h2" ∅ [text "The latest from the markets"];
   Tag "p" ∅ [a "/news/skipped/" "not in the region"];
   Tag "section" ∅ [a "/news/six/" "6"; a "/about" "short"; a "/news/seven/#top" "7"]].

(** An error description of 250 characters. *)
Definition long_error : string :=
  let s := "0123456789" in
  let t := s ++ s ++ s ++ s ++ s in
  t ++ t ++ t ++ t ++ t.

(** A world that serves [home] as the homepage and fails elsewhere. *)
Definition serving (home : list node) : world :=
  {| fetch := fun _ u =>
       if String.eqb u base_url then Returned home
       else Raised "404";
     clock := fun t =>
       {| year := 2027; month := 1; day := 1; hour := 0; minute := 0;
          second := 0; microsecond := t |} |}.

Definition w0 : world :=
  {| fetch := fun _ u =>
       if String.eqb u base_url then Returned homepage
       else if String.eqb u "https://crypto.news/news/two/"
            then Raised "HTTPSConnectionPool: Read timed out."
            else Returned [Tag "h1" ∅ [text "Bitcoin Hits $100K"]];
     clock := fun t =>
       {| year := 2026; month := 11; day := 3; hour := 9; minute := 5;
          second := t; microsecond := 0 |} |}.

End Samples.

(** ** Step 2: one record per URL *)

(** The record the handler builds for a fetch that raised [e]. *)
Definition error_article (u e now : string) : article :=
  {| url := u; title := "Error fetching article"; summary := "";
     content := "Error: " ++ PyStr.slice_to 200 e; date := "";
     scraped_at := now |}.

(** The record built from a parsed article page. *)
Definition parsed_article (u : string) (soup : node) (now : string) : article :=
  {| url := u; title := extract_title soup; summary := extract_summary soup;
     content := extract_content soup; date := extract_date soup;
     scraped_at := now |}.

(** What one turn appends, read off the world at effect count [t]. *)
Definition record_at (w : world) (t : nat) (u : string) : article :=
  let now := isoformat (clock w (S t)) in
  match fetch w t u with
  | Raised e => error_article u e now
  | Returned cs => parsed_article u (BeautifulSoup cs) now
  end.

Fixpoint records_from (w : world) (t : nat) (urls : list string) : list article :=
  match urls with
  | [] => []
  | u :: rest => record_at w t u :: records_from w (S (S t)) rest
  end.

(** ** Step 1: the URLs that qualify *)

(** The three tests of the filter that read the URL alone. *)
Definition passes_filters (u : string) : bool :=
  PyStr.contains base_url u
  && (4 <=? PyStr.count "/" u)
  && negb (existsb (fun x => PyStr.contains x u) excluded).

(** The qualifying URLs of a list of links, with no limit: each link's
    URL that passes the filters and was not seen before, in the order of
    the links. *)
Fixpoint qualifying_from (seen : list string) (hrefs : list string) : list string :=
  match hrefs with
  | [] => []
  | href :: rest =>
      let u := full_url href in
      if passes_filters u && negb (bool_decide (u ∈ seen))
      then u :: qualifying_from (seen ++ [u])%list rest
      else qualifying_from seen rest
  end.

Definition qualifying (hrefs : list string) : list string :=
  qualifying_from [] hrefs.

(** ** The fields as the specification words them

    The specification speaks of an element's trimmed text: the text of the
    element, trimmed once as a whole. *)

Module AsStated.

Definition trimmed_text (n : node) : string := PyStr.strip (get_text n).

Definition title (soup : node) : string :=
  match find ["h1"] any_attrs soup with
  | Some h1 => trimmed_text h1
  | None => ""
  end.

(** The two failures of discovery, each with an error of its own. *)
Definition distinguishes_failures : Prop :=
  exists no_region no_urls : string,
    no_region <> no_urls
    /\ (forall w limit t cs,
          fetch w t base_url = Returned cs ->
          find_latest_section (BeautifulSoup cs) = None ->
          (scrape_crypto_news w limit t).1 = Raised no_region)
    /\ (forall w limit t cs sec,
          fetch w t base_url = Returned cs ->
          find_latest_section (BeautifulSoup cs) = Some sec ->
          (links_loop limit (anchor_hrefs sec) []).1 = [] ->
          (scrape_crypto_news w limit t).1 = Raised no_urls).

End AsStated.

(** ** The endpoint [GET /crypto-news]

    [get_crypto_news] declares [limit] as [Query(ge=1, le=20)]: for a
    limit outside 1-20 the framework answers HTTP 422 and the body does
    not run.  Within the range the body runs the scraper and wraps what
    it gives: a response envelope when it returns, an [HTTPException]
    when it raises. *)

Module Api.

Record CryptoScrapeResponse : Type :=
  { success : bool; articles : list article; count : Z;
    scraped_at : string; message : option string }.

(** [HTTPException(status_code=..., detail={...})] *)
Record HTTPException : Type :=
  { status_code : Z; detail_success : bool;
    detail_error : string; detail_message : string }.

(** [str(n)] for a length, as an f-string prints it. *)
Definition str_of_len (n : nat) : string :=
  NilZero.string_of_uint (Nat.to_uint n).

(** How a request ends without an answer: refused by the framework on
    the declared range (HTTP 422), or failed in the body. *)
Inductive rejection : Type :=
| Unprocessable
| Failed (h : HTTPException).

Definition get_crypto_news (w : world) (limit : Z)
  : nat -> (rejection + CryptoScrapeResponse) * nat :=
  fun t =>
    if (1 <=? limit) && (limit <=? 20) then
      match scrape_crypto_news w limit t with
      | (Returned arts, t') =>
          (inr {| success := true;
                  articles := arts;
                  count := Z.of_nat (length arts);
                  scraped_at := isoformat (clock w t');
                  message := Some ("Successfully scraped "
                                   ++ str_of_len (length arts) ++ " article(s)") |},
           S t')
      | (Raised e, t') =>
          (inl (Failed
                  {| status_code := 500;
                     detail_success := false;
                     detail_error := e;
                     detail_message :=
                       "Failed to scrape articles. Check if the website is accessible." |}),
           t')
      end
    else (inl Unprocessable, t).

End Api.

(** ** Descriptions used by the properties of the uncited code *)

(** The class attribute, as the markup gives it, mentions "latest" in
    any letter case. *)
Definition class_mentions_latest (n : node) : bool :=
  match get "class" n with
  | Some v => PyStr.contains "latest" (PyStr.lower v)
  | None => false
  end.

(** A [meta] tag whose [name] is "description". *)
Definition is_meta_description (n : node) : bool :=
  name_in ["meta"] n && bool_decide (get "name" n = Some "description").

(** No character of [x] is white space. *)
Fixpoint no_space (x : string) : bool :=
  match x with
  | EmptyString => true
  | String c x' => negb (PyStr.isspace c) && no_space x'
  end.

(** The character [c] does not occur in [x]. *)
Fixpoint char_free (c : ascii) (x : string) : bool :=
  match x with
  | EmptyString => true
  | String a x' => negb (Ascii.eqb a c) && char_free c x'
  end.

(** A world like [w0] except on a page of another site. *)
Definition w0_foreign : world :=
  {| fetch := fun n u =>
       if String.eqb u "https://example.org/a/b/"
       then Raised "unreachable"
       else fetch Samples.w0 n u;
     clock := clock Samples.w0 |}.

(** ** The limit as the specification words it

    With fewer qualifying anchors than the limit, discovery succeeds and
    the function returns a record for each of them. *)
Definition fewer_than_limit_without_error : Prop :=
  forall w limit t cs sec,
    1 <= limit ->
    fetch w t base_url = Returned cs ->
    find_latest_section (BeautifulSoup cs) = Some sec ->
    Z.of_nat (length (qualifying (anchor_hrefs sec))) < limit ->
    exists arts t',
      scrape_crypto_news w limit t = (Returned arts, t')
      /\ url <$> arts = qualifying (anchor_hrefs sec).

(** * Properties *)

(** ** The embedding on sample documents *)

Example discover_class_region :
  strategy1 (BeautifulSoup Samples.homepage) = None
  /\ strategy2 (BeautifulSoup Samples.homepage) = Some Samples.latest_div
  /\ discover (BeautifulSoup Samples.homepage) 3
     = ["https://crypto.news/news/one/"; "https://crypto.news/news/two/";
        "https://crypto.news/news/three/"]
  /\ (links_loop 3 (anchor_hrefs Samples.latest_div) []).2
     = ["/news/four/"; "https://crypto.news/news/five/"].
Proof. split_and!; vm_compute; reflexivity. Qed.

Example discover_heading_region :
  discover (BeautifulSoup Samples.homepage_heading) 5
  = ["https://crypto.news/news/one/"; "https://crypto.news/news/two/"].
Proof. vm_compute. reflexivity. Qed.

Example discover_proximity_region :
  strategy1 (BeautifulSoup Samples.homepage_proximity) = None
  /\ strategy2 (BeautifulSoup Samples.homepage_proximity) = None
  /\ discover (BeautifulSoup Samples.homepage_proximity) 5
     = ["https://crypto.news/news/six/"].
Proof. split_and!; vm_compute; reflexivity. Qed.

Example scrape_sample_run :
  scrape_crypto_news Samples.w0 2 0%nat
  = (Returned
       [{| url := "https://crypto.news/news/one/"; title := "Bitcoin Hits $100K";
           summary := ""; content := ""; date := "";
           scraped_at := "2026-11-03T09:05:02" |};
        {| url := "https://crypto.news/news/two/";
           title := "Error fetching article"; summary := "";
           content := "Error: HTTPSConnectionPool: Read timed out."; date := "";
           scraped_at := "2026-11-03T09:05:04" |}], 5%nat).
Proof. vm_compute. reflexivity. Qed.

(** ** Step 2: the loop over the URLs *)

Lemma scrape_article_total w u t :
  scrape_article w u t = (Returned (record_at w t u), S (S t)).
Proof.
  unfold scrape_article, try_except, bind, get_soup, now_isoformat, ret, record_at.
  destruct (fetch w t u) as [cs|e]; reflexivity.
Qed.

Lemma articles_loop_total w urls : forall articles t,
  articles_loop w urls articles t
  = (Returned (articles ++ records_from w t urls)%list,
     (t + 2 * length urls)%nat).
Proof.
  induction urls as [|u rest IH]; intros articles t; simpl.
  - unfold ret. rewrite app_nil_r. f_equal. lia.
  - unfold bind at 1. rewrite scrape_article_total, IH.
    rewrite <- app_assoc. simpl. f_equal. lia.
Qed.

Lemma records_from_urls w urls : forall t, url <$> records_from w t urls = urls.
Proof.
  induction urls as [|u rest IH]; intros t; simpl; [done|].
  rewrite IH. f_equal. unfold record_at. by destruct (fetch w t u).
Qed.

Lemma records_from_length w urls t : length (records_from w t urls) = length urls.
Proof. by rewrite <- (records_from_urls w urls t) at 2; rewrite length_fmap. Qed.

Lemma records_from_app w pre post : forall t,
  records_from w t (pre ++ post)
  = (records_from w t pre ++ records_from w (t + 2 * length pre) post)%list.
Proof.
  induction pre as [|u pre IH]; intros t; simpl.
  - f_equal. lia.
  - rewrite IH. do 3 f_equal. lia.
Qed.

Lemma slice_to_length n : forall s,
  String.length (PyStr.slice_to n s) = (n `min` String.length s)%nat.
Proof.
  induction n as [|n IH]; intros [|c s]; simpl; try lia.
  specialize (IH s). lia.
Qed.

Lemma slice_to_prefix n : forall s, exists rest, s = PyStr.slice_to n s ++ rest.
Proof.
  induction n as [|n IH]; intros [|c s]; simpl; eauto.
  destruct (IH s) as [rest Hrest]. exists rest.
  rewrite Hrest at 1. reflexivity.
Qed.

Lemma string_app_length (a b : string) :
  String.length (a ++ b) = (String.length a + String.length b)%nat.
Proof. induction a as [|c a IH]; simpl; [done | by rewrite IH]. Qed.

Lemma isoformat_set d : isoformat d <> "".
Proof.
  unfold isoformat. intros H.
  apply (f_equal String.length) in H.
  rewrite !string_app_length in H. simpl in H. lia.
Qed.

Lemma startswith_app p s : PyStr.startswith p (p ++ s) = true.
Proof.
  induction p as [|c p IH]; [done|].
  change (String c p ++ s) with (String c (p ++ s)). simpl.
  by rewrite Ascii.eqb_refl.
Qed.

Lemma get_article_urls_total w limit t :
  get_article_urls w limit t
  = (match fetch w t base_url with
     | Returned cs => Returned (discover (BeautifulSoup cs) limit)
     | Raised e => Raised ("Network error: " ++ e)
     end, S t).
Proof.
  unfold get_article_urls, try_except, bind, get_soup, ret, raise.
  destruct (fetch w t base_url); reflexivity.
Qed.

(** The three ways a run of the function ends. *)
Lemma scrape_crypto_news_total w limit t :
  scrape_crypto_news w limit t
  = match fetch w t base_url with
    | Raised e => (Raised ("Network error: " ++ e), S t)
    | Returned cs =>
        match discover (BeautifulSoup cs) limit with
        | [] => (Raised "Could not find articles. Website structure may have changed.",
                 S t)
        | urls => (Returned (records_from w (S t) urls),
                   (S t + 2 * length urls)%nat)
        end
    end.
Proof.
  unfold scrape_crypto_news, bind at 1. rewrite get_article_urls_total.
  destruct (fetch w t base_url) as [cs|e]; [|reflexivity].
  destruct (discover (BeautifulSoup cs) limit) as [|u rest]; [reflexivity|].
  unfold bind. rewrite articles_loop_total. reflexivity.
Qed.

(** No run ends in the failure of the last check of the function. *)
Lemma empty_result_branch_unreachable w limit t :
  (scrape_crypto_news w limit t).1 <> Raised "No articles were scraped successfully".
Proof.
  rewrite scrape_crypto_news_total.
  destruct (fetch w t base_url) as [cs|e].
  - by destruct (discover (BeautifulSoup cs) limit).
  - intros H. injection H as H. discriminate H.
Qed.

(** C1. Per-article fault isolation: when the fetch of a discovered URL
    raises, the loop of step 2 still returns; the exception does not reach
    the batch, and exactly one record stands for that URL, at its place,
    with title "Error fetching article", content that starts with
    "Error: ", empty summary and date, and the time stamp read from the
    clock in the handler. *)
Theorem article_fault_isolation w pre u post articles t e :
  fetch w (t + 2 * length pre) u = Raised e ->
  exists before a after t',
    articles_loop w (pre ++ u :: post) articles t
      = (Returned (articles ++ before ++ a :: after)%list, t')
    /\ url <$> before = pre /\ url a = u /\ url <$> after = post
    /\ title a = "Error fetching article"
    /\ PyStr.startswith "Error: " (content a) = true
    /\ content a = "Error: " ++ PyStr.slice_to 200 e
    /\ summary a = "" /\ date a = ""
    /\ scraped_at a = isoformat (clock w (S (t + 2 * length pre)))
    /\ scraped_at a <> "".
Proof.
  intros Hfetch.
  exists (records_from w t pre), (record_at w (t + 2 * length pre) u),
         (records_from w (S (S (t + 2 * length pre))) post),
         (t + 2 * length (pre ++ u :: post))%nat.
  split.
  { rewrite articles_loop_total, records_from_app. reflexivity. }
  rewrite !records_from_urls.
  unfold record_at. rewrite Hfetch. simpl.
  repeat split; try reflexivity.
  apply isoformat_set.
Qed.

Lemma article_fault_isolation_witness :
  exists before a after t',
    articles_loop Samples.w0
      (["https://crypto.news/news/one/"] ++ "https://crypto.news/news/two/"
         :: ["https://crypto.news/news/three/"]) [] 1%nat
      = (Returned ([] ++ before ++ a :: after)%list, t')
    /\ url <$> before = ["https://crypto.news/news/one/"]
    /\ url a = "https://crypto.news/news/two/"
    /\ url <$> after = ["https://crypto.news/news/three/"]
    /\ title a = "Error fetching article"
    /\ PyStr.startswith "Error: " (content a) = true
    /\ content a
       = "Error: " ++ PyStr.slice_to 200 "HTTPSConnectionPool: Read timed out."
    /\ summary a = "" /\ date a = ""
    /\ scraped_at a = isoformat (clock Samples.w0 4%nat)
    /\ scraped_at a <> "".
Proof.
  apply (article_fault_isolation Samples.w0 ["https://crypto.news/news/one/"]
           "https://crypto.news/news/two/" ["https://crypto.news/news/three/"]
           [] 1%nat "HTTPSConnectionPool: Read timed out.").
  reflexivity.
Defined.

(** C5. When step 1 leaves [k >= 1] URLs, the loop of step 2 hands the
    last check a list of exactly [k] records, one per URL and in the order
    of discovery; the list is not empty, so the function returns it and the
    failure "No articles were scraped successfully" is not raised. *)
Theorem one_record_per_discovered_url w limit t cs urls :
  fetch w t base_url = Returned cs ->
  discover (BeautifulSoup cs) limit = urls ->
  (1 <= length urls)%nat ->
  exists articles t',
    articles_loop w urls [] (S t) = (Returned articles, t')
    /\ articles <> []
    /\ scrape_crypto_news w limit t = (Returned articles, t')
    /\ url <$> articles = urls
    /\ length articles = length urls
    /\ (scrape_crypto_news w limit t).1
       <> Raised "No articles were scraped successfully".
Proof.
  intros Hfetch Hd Hk.
  exists (records_from w (S t) urls), (S t + 2 * length urls)%nat.
  assert (Hloop : articles_loop w urls [] (S t)
                  = (Returned (records_from w (S t) urls),
                     (S t + 2 * length urls)%nat))
    by (rewrite articles_loop_total; reflexivity).
  assert (Hne : records_from w (S t) urls <> []).
  { intros H. apply (f_equal length) in H.
    rewrite records_from_length in H. simpl in H. lia. }
  repeat split.
  - exact Hloop.
  - exact Hne.
  - rewrite scrape_crypto_news_total, Hfetch, Hd.
    destruct urls as [|u rest]; [simpl in Hk; lia | reflexivity].
  - apply records_from_urls.
  - apply records_from_length.
  - apply empty_result_branch_unreachable.
Qed.

Lemma one_record_per_discovered_url_witness :
  exists articles t',
    articles_loop Samples.w0
      ["https://crypto.news/news/one/"; "https://crypto.news/news/two/";
       "https://crypto.news/news/three/"] [] 1%nat = (Returned articles, t')
    /\ articles <> []
    /\ scrape_crypto_news Samples.w0 3 0%nat = (Returned articles, t')
    /\ url <$> articles
       = ["https://crypto.news/news/one/"; "https://crypto.news/news/two/";
          "https://crypto.news/news/three/"]
    /\ length articles = 3%nat
    /\ (scrape_crypto_news Samples.w0 3 0%nat).1
       <> Raised "No articles were scraped successfully".
Proof.
  apply (one_record_per_discovered_url Samples.w0 3 0%nat Samples.homepage).
  - reflexivity.
  - vm_compute. reflexivity.
  - simpl. lia.
Defined.

(** C7. When the fetch of an article raises [e], the record's content is
    "Error: " followed by the error description cut to its first 200
    characters: the description kept is a prefix of [str(e)] of length
    [min 200 (len e)], so at most 200 characters, and the whole field has
    at most 207. *)
Theorem error_description_truncated w u t e :
  fetch w t u = Raised e ->
  exists a t' d,
    scrape_article w u t = (Returned a, t')
    /\ content a = "Error: " ++ d
    /\ d = PyStr.slice_to 200 e
    /\ (exists rest, e = d ++ rest)
    /\ String.length d = (200 `min` String.length e)%nat
    /\ (String.length d <= 200)%nat
    /\ (String.length (content a) <= 207)%nat.
Proof.
  intros Hfetch.
  exists (record_at w t u), (S (S t)), (PyStr.slice_to 200 e).
  pose proof (slice_to_length 200 e) as Hlen.
  split; [apply scrape_article_total|].
  unfold record_at. rewrite Hfetch. cbn [content error_article].
  repeat split.
  - apply slice_to_prefix.
  - exact Hlen.
  - lia.
  - rewrite string_app_length. change (String.length "Error: ") with 7%nat. lia.
Qed.

(** The bound of 200 is on the description: with its prefix the field
    of a long error has 207 characters. *)
Example error_content_of_long_error :
  String.length Samples.long_error = 250%nat
  /\ String.length (content (error_article "u" Samples.long_error "now")) = 207%nat.
Proof. split; vm_compute; reflexivity. Qed.

Lemma error_description_truncated_witness :
  exists a t' d,
    scrape_article Samples.w0 "https://crypto.news/news/two/" 3%nat = (Returned a, t')
    /\ content a = "Error: " ++ d
    /\ d = PyStr.slice_to 200 "HTTPSConnectionPool: Read timed out."
    /\ (exists rest, "HTTPSConnectionPool: Read timed out." = d ++ rest)
    /\ String.length d
       = (200 `min` String.length "HTTPSConnectionPool: Read timed out.")%nat
    /\ (String.length d <= 200)%nat
    /\ (String.length (content a) <= 207)%nat.
Proof.
  apply (error_description_truncated Samples.w0 "https://crypto.news/news/two/"
           3%nat "HTTPSConnectionPool: Read timed out.").
  reflexivity.
Defined.

(** ** Step 1: the loop over the links *)

Lemma valid_article_url_split u article_urls :
  valid_article_url u article_urls
  = passes_filters u && negb (bool_decide (u ∈ article_urls)).
Proof.
  unfold valid_article_url, passes_filters.
  destruct (PyStr.contains base_url u), (4 <=? PyStr.count "/" u),
    (bool_decide (u ∈ article_urls)),
    (existsb (λ x : string, PyStr.contains x u) excluded); reflexivity.
Qed.

Lemma elem_of_qualifying_from hrefs : forall seen u,
  u ∈ qualifying_from seen hrefs
  <-> u ∈ full_url <$> hrefs /\ passes_filters u = true /\ u ∉ seen.
Proof.
  induction hrefs as [|h rest IH]; intros seen u; simpl.
  - rewrite !elem_of_nil. tauto.
  - destruct (passes_filters (full_url h)) eqn:Hp; simpl.
    + case_bool_decide as Hin; simpl.
      * rewrite IH, elem_of_cons. split; [tauto|].
        intros [[->|?] [? ?]]; tauto.
      * rewrite !elem_of_cons, IH, not_elem_of_app, list_elem_of_singleton.
        split.
        -- intros [->|(? & ? & ? & ?)]; tauto.
        -- intros [[->|?] [? ?]]; [tauto|].
           destruct (decide (u = full_url h)); tauto.
    + rewrite IH, elem_of_cons. split; [tauto|].
      intros [[->|?] [? ?]]; [congruence | tauto].
Qed.

Lemma qualifying_from_NoDup hrefs : forall seen,
  NoDup seen -> NoDup (seen ++ qualifying_from seen hrefs).
Proof.
  induction hrefs as [|h rest IH]; intros seen Hnd; simpl.
  - by rewrite app_nil_r.
  - destruct (passes_filters (full_url h) && negb (bool_decide (full_url h ∈ seen)))
      eqn:Hv; [|by apply IH].
    apply andb_true_iff in Hv as [_ Hv]. apply negb_true_iff in Hv.
    apply bool_decide_eq_false in Hv.
    rewrite (cons_middle _ seen), app_assoc. apply IH.
    apply NoDup_app. repeat split; [done| |apply NoDup_singleton].
    intros x Hx ->%list_elem_of_singleton. done.
Qed.

Lemma qualifying_from_sublist hrefs : forall seen,
  qualifying_from seen hrefs `sublist_of` full_url <$> hrefs.
Proof.
  induction hrefs as [|h rest IH]; intros seen; simpl; [constructor|].
  destruct (passes_filters (full_url h) && negb (bool_decide (full_url h ∈ seen))).
  - by apply sublist_skip.
  - by apply sublist_cons.
Qed.

Lemma qualifying_from_app pre post : forall seen,
  qualifying_from seen (pre ++ post)
  = (qualifying_from seen pre
     ++ qualifying_from (seen ++ qualifying_from seen pre) post)%list.
Proof.
  induction pre as [|h pre IH]; intros seen; simpl.
  - by rewrite app_nil_r.
  - destruct (passes_filters (full_url h) && negb (bool_decide (full_url h ∈ seen))).
    + rewrite IH. simpl. by rewrite <- app_assoc.
    + apply IH.
Qed.

(** A limit the list has already passed is never met again: the loop
    visits every link. *)
Lemma links_loop_no_break limit hrefs : forall article_urls,
  limit <= Z.of_nat (length article_urls) ->
  links_loop limit hrefs article_urls
  = ((article_urls ++ qualifying_from article_urls hrefs)%list, []).
Proof.
  induction hrefs as [|h rest IH]; intros acc Hlim; simpl.
  - by rewrite app_nil_r.
  - rewrite valid_article_url_split.
    destruct (passes_filters (full_url h) && negb (bool_decide (full_url h ∈ acc)));
      [|by apply IH].
    rewrite length_app. simpl.
    destruct (Z.eqb_spec (Z.of_nat (length acc + 1)) limit) as [Heq|_]; [lia|].
    rewrite IH by (rewrite length_app; simpl; lia).
    by rewrite <- app_assoc.
Qed.

(** Below the limit, the list grows by the qualifying URLs up to it. *)
Lemma links_loop_urls limit hrefs : forall article_urls,
  Z.of_nat (length article_urls) < limit ->
  (links_loop limit hrefs article_urls).1
  = (article_urls
     ++ take (Z.to_nat limit - length article_urls)
             (qualifying_from article_urls hrefs))%list.
Proof.
  induction hrefs as [|h rest IH]; intros acc Hlim; simpl.
  - by rewrite take_nil, app_nil_r.
  - rewrite valid_article_url_split.
    destruct (passes_filters (full_url h) && negb (bool_decide (full_url h ∈ acc)));
      [|by apply IH].
    rewrite length_app. simpl.
    replace (Z.to_nat limit - length acc)%nat
      with (S (Z.to_nat limit - (length acc + 1)))%nat by lia.
    simpl.
    destruct (Z.eqb_spec (Z.of_nat (length acc + 1)) limit) as [Heq|Hne]; simpl.
    + replace (Z.to_nat limit - (length acc + 1))%nat with 0%nat by lia.
      by rewrite take_0.
    + rewrite IH by (rewrite length_app; simpl; lia).
      rewrite length_app, <- app_assoc. reflexivity.
Qed.

(** When the limit is met, the loop stopped at the link that supplied
    the last URL: what it visited ends with that link, accepted there. *)
Lemma links_loop_break limit hrefs : forall article_urls,
  Z.of_nat (length article_urls) < limit ->
  Z.of_nat (length (links_loop limit hrefs article_urls).1) = limit ->
  exists visited h,
    hrefs = (visited ++ h :: (links_loop limit hrefs article_urls).2)%list
    /\ (links_loop limit hrefs article_urls).1
       = ((article_urls ++ qualifying_from article_urls visited) ++ [full_url h])%list
    /\ valid_article_url (full_url h)
         (article_urls ++ qualifying_from article_urls visited) = true.
Proof.
  induction hrefs as [|h rest IH]; intros acc Hlim; simpl.
  - lia.
  - rewrite valid_article_url_split.
    destruct (passes_filters (full_url h) && negb (bool_decide (full_url h ∈ acc)))
      eqn:Hv.
    + rewrite length_app. simpl.
      destruct (Z.eqb_spec (Z.of_nat (length acc + 1)) limit) as [Heq|Hne]; simpl.
      * intros _. exists [], h. simpl. rewrite app_nil_r.
        by rewrite valid_article_url_split.
      * intros Hlen.
        destruct (IH (acc ++ [full_url h])%list) as (visited & h' & Hh & Hu & Hok).
        { rewrite length_app. simpl. lia. }
        { exact Hlen. }
        exists (h :: visited), h'. simpl. rewrite Hv.
        split; [by rewrite Hh at 1|].
        replace (acc ++ full_url h :: qualifying_from (acc ++ [full_url h]) visited)%list
          with ((acc ++ [full_url h]) ++ qualifying_from (acc ++ [full_url h]) visited)%list
          by (by rewrite <- app_assoc).
        by split.
    + intros Hlen.
      destruct (IH acc Hlim Hlen) as (visited & h' & Hh & Hu & Hok).
      exists (h :: visited), h'. simpl. rewrite Hv.
      split; [by rewrite Hh at 1|]. by split.
Qed.

(** When the limit is not met, every link was visited. *)
Lemma links_loop_exhausted limit hrefs : forall article_urls,
  Z.of_nat (length (article_urls ++ qualifying_from article_urls hrefs)) < limit ->
  links_loop limit hrefs article_urls
  = ((article_urls ++ qualifying_from article_urls hrefs)%list, []).
Proof.
  induction hrefs as [|h rest IH]; intros acc Hlim; simpl in *.
  - by rewrite app_nil_r.
  - rewrite valid_article_url_split.
    destruct (passes_filters (full_url h) && negb (bool_decide (full_url h ∈ acc)));
      [|by apply IH].
    rewrite (cons_middle _ acc), app_assoc in Hlim.
    rewrite length_app. simpl.
    destruct (Z.eqb_spec (Z.of_nat (length acc + 1)) limit) as [Heq|Hne].
    + rewrite !length_app in Hlim. simpl in Hlim. lia.
    + rewrite IH by exact Hlim. by rewrite <- app_assoc.
Qed.

Lemma links_loop_extends limit hrefs : forall article_urls,
  exists tail, (links_loop limit hrefs article_urls).1 = (article_urls ++ tail)%list.
Proof.
  induction hrefs as [|h rest IH]; intros acc; simpl.
  - exists []. by rewrite app_nil_r.
  - destruct (valid_article_url (full_url h) acc); [|by apply IH].
    destruct (Z.of_nat (length (acc ++ [full_url h])) =? limit); simpl.
    + by exists [full_url h].
    + destruct (IH (acc ++ [full_url h])%list) as [tail ->].
      exists (full_url h :: tail). by rewrite <- app_assoc.
Qed.

(** The first URL the loop appends, if any, passed the filter against
    the list the loop started from. *)
Lemma links_loop_first limit hrefs : forall article_urls,
  (links_loop limit hrefs article_urls).1 = article_urls
  \/ exists u tail,
       (links_loop limit hrefs article_urls).1 = (article_urls ++ u :: tail)%list
       /\ valid_article_url u article_urls = true.
Proof.
  induction hrefs as [|h rest IH]; intros acc; simpl; [by left|].
  destruct (valid_article_url (full_url h) acc) eqn:Hv; [|by apply IH].
  right. exists (full_url h).
  destruct (Z.of_nat (length (acc ++ [full_url h])) =? limit); simpl.
  - by exists [].
  - destruct (links_loop_extends limit rest (acc ++ [full_url h])%list) as [tail ->].
    exists tail. by rewrite <- app_assoc.
Qed.

Lemma valid_article_url_iff u article_urls :
  valid_article_url u article_urls = true
  <-> PyStr.contains base_url u = true
      /\ 4 <= PyStr.count "/" u
      /\ (u ∉ article_urls)
      /\ Forall (fun x => PyStr.contains x u = false) excluded.
Proof.
  unfold valid_article_url.
  rewrite !andb_true_iff, !negb_true_iff, Z.leb_le, bool_decide_eq_false.
  rewrite <- not_true_iff_false, existsb_exists, Forall_forall.
  split.
  - intros [[[? ?] ?] Hex]. split_and!; try done.
    intros x Hx%list_elem_of_In. apply not_true_iff_false.
    intros Hc. apply Hex. eauto.
  - intros (? & ? & ? & Hall). split_and!; try done.
    intros (x & Hx%list_elem_of_In & Hc). specialize (Hall x Hx). congruence.
Qed.

Lemma passes_filters_iff u :
  passes_filters u = true
  <-> PyStr.contains base_url u = true
      /\ 4 <= PyStr.count "/" u
      /\ Forall (fun x => PyStr.contains x u = false) excluded.
Proof.
  pose proof (valid_article_url_iff u []) as H.
  rewrite valid_article_url_split in H. simpl in H.
  rewrite andb_true_r in H. rewrite H.
  pose proof (not_elem_of_nil u). tauto.
Qed.

(** The links of the loop are the href values of the anchors of the
    region that have one, in document order. *)
Lemma anchor_hrefs_anchors latest_section :
  Forall2 (fun x h => get "href" x = Some h)
    (List.filter (fun x => name_in ["a"] x && bool_decide (is_Some (get "href" x)))
                 (descendants latest_section))
    (anchor_hrefs latest_section).
Proof.
  unfold anchor_hrefs, find_all.
  induction (descendants latest_section) as [|x l IH]; simpl; [constructor|].
  destruct (name_in ["a"] x); simpl; [|exact IH].
  destruct (get "href" x) as [h|] eqn:Hh; simpl.
  - by constructor.
  - exact IH.
Qed.

Lemma qualifying_prefix pre post :
  qualifying pre `prefix_of` qualifying (pre ++ post).
Proof. unfold qualifying. rewrite qualifying_from_app. by eexists. Qed.

Lemma elem_of_qualifying l u :
  u ∈ qualifying l
  <-> u ∈ full_url <$> l
      /\ PyStr.contains "https://crypto.news" u = true
      /\ 4 <= PyStr.count "/" u
      /\ Forall (fun x => PyStr.contains x u = false)
           ["/category/"; "/tag/"; "/author/"; "#";
            "/buy-crypto/"; "/events/"; "/meme-coins/"].
Proof.
  unfold qualifying. rewrite elem_of_qualifying_from, passes_filters_iff.
  pose proof (not_elem_of_nil u). unfold base_url, excluded. tauto.
Qed.

(** C2, as the code has it.  With a region found and a limit of at
    least 1, the links of the loop are the href values of the anchors of
    the region, in document order, and the list of discovered URLs has no
    duplicates and at most [limit] elements; it is the first [limit]
    qualifying URLs, in the order of the anchors in the document; when it
    reaches [limit] elements the loop has stopped at the anchor that gave
    the last of them and scanned nothing after it; and when fewer than
    [limit] URLs qualify it is all of them, every anchor having been
    scanned.  Step 1 itself raises nothing.  With at least one qualifying
    URL the function goes on and returns one record per discovered URL;
    with none the list is empty and the function raises "Could not find
    articles. Website structure may have changed.".  The qualifying URLs
    of a list of links are the URLs of the links that contain the base
    URL, have at least 4 "/" and none of the excluded substrings, each
    once, at its first place. *)
Theorem discovered_urls_bounded soup limit latest_section :
  find_latest_section soup = Some latest_section ->
  1 <= limit ->
  let hrefs := anchor_hrefs latest_section in
  let urls := discover soup limit in
  let unvisited := (links_loop limit hrefs []).2 in
  urls = (links_loop limit hrefs []).1
  /\ NoDup urls
  /\ Z.of_nat (length urls) <= limit
  /\ urls = take (Z.to_nat limit) (qualifying hrefs)
  /\ urls `sublist_of` full_url <$> hrefs
  /\ (forall u, u ∈ qualifying hrefs
                <-> u ∈ full_url <$> hrefs /\ passes_filters u = true)
  /\ (Z.of_nat (length urls) = limit ->
      exists visited h,
        hrefs = (visited ++ h :: unvisited)%list
        /\ urls = (qualifying visited ++ [full_url h])%list
        /\ valid_article_url (full_url h) (qualifying visited) = true)
  /\ (Z.of_nat (length (qualifying hrefs)) < limit ->
      urls = qualifying hrefs /\ unvisited = [])
  /\ (forall w t cs,
        fetch w t base_url = Returned cs -> BeautifulSoup cs = soup ->
        get_article_urls w limit t = (Returned urls, S t))
  /\ Forall2 (fun x h => get "href" x = Some h)
       (List.filter (fun x => name_in ["a"] x
                              && bool_decide (is_Some (get "href" x)))
                    (descendants latest_section))
       hrefs
  /\ (forall l, NoDup (qualifying l))
  /\ (forall l u,
        u ∈ qualifying l
        <-> u ∈ full_url <$> l
            /\ PyStr.contains "https://crypto.news" u = true
            /\ 4 <= PyStr.count "/" u
            /\ Forall (fun x => PyStr.contains x u = false)
                 ["/category/"; "/tag/"; "/author/"; "#";
                  "/buy-crypto/"; "/events/"; "/meme-coins/"])
  /\ (forall pre post, qualifying pre `prefix_of` qualifying (pre ++ post))
  /\ (forall w t cs,
        fetch w t base_url = Returned cs -> BeautifulSoup cs = soup ->
        (qualifying hrefs <> [] ->
         urls <> []
         /\ scrape_crypto_news w limit t
            = (Returned (records_from w (S t) urls), (S t + 2 * length urls)%nat)
         /\ url <$> records_from w (S t) urls = urls)
        /\ (qualifying hrefs = [] ->
            urls = []
            /\ scrape_crypto_news w limit t
               = (Raised "Could not find articles. Website structure may have changed.",
                  S t))).
Proof.
  intros Hsec Hlim hrefs urls unvisited.
  assert (Hurls : urls = (links_loop limit hrefs []).1).
  { unfold urls, discover. by rewrite Hsec. }
  assert (Htake : urls = take (Z.to_nat limit) (qualifying hrefs)).
  { rewrite Hurls, links_loop_urls by (simpl; lia).
    simpl. by rewrite Nat.sub_0_r. }
  assert (Hnd : forall l, NoDup (qualifying l)).
  { intros l. apply (qualifying_from_NoDup l []). constructor. }
  split_and!.
  - exact Hurls.
  - rewrite Htake. eapply sublist_NoDup; [apply Hnd | apply sublist_take].
  - rewrite Htake, length_take. lia.
  - exact Htake.
  - rewrite Htake. etrans; [apply sublist_take|].
    apply qualifying_from_sublist.
  - intros u. unfold qualifying. rewrite elem_of_qualifying_from.
    pose proof (not_elem_of_nil u). tauto.
  - intros Hlen. rewrite Hurls in Hlen.
    destruct (links_loop_break limit hrefs []) as (visited & h & Hh & Hu & Hok);
      [simpl; lia | exact Hlen |].
    exists visited, h. by rewrite Hurls.
  - intros Hfew. split.
    + rewrite Hurls, links_loop_exhausted; [done | exact Hfew].
    + unfold unvisited. rewrite links_loop_exhausted; [done | exact Hfew].
  - intros w t cs Hfetch Hsoup.
    by rewrite get_article_urls_total, Hfetch, Hsoup.
  - apply anchor_hrefs_anchors.
  - exact Hnd.
  - apply elem_of_qualifying.
  - apply qualifying_prefix.
  - intros w t cs Hfetch Hsoup.
    rewrite scrape_crypto_news_total, Hfetch, Hsoup. fold urls.
    split.
    + intros Hne.
      assert (Hurls_ne : urls <> []).
      { rewrite Htake. destruct (qualifying hrefs) as [|q qs]; [done|].
        replace (Z.to_nat limit) with (S (Z.to_nat limit - 1)) by lia. done. }
      split_and!; [exact Hurls_ne | | apply records_from_urls].
      by destruct urls.
    + intros Hnone.
      assert (Hurls_nil : urls = []) by (by rewrite Htake, Hnone, take_nil).
      by rewrite Hurls_nil.
Qed.

Lemma discovered_urls_bounded_witness :
  anchor_hrefs Samples.latest_div
  = ["/news/one/"; "/category/x/y/"; "/news/two/"; "/news/one/"; "/tag/z/w/";
     "/news/three/"; "/news/four/"; "https://crypto.news/news/five/"]
  /\ discover (BeautifulSoup Samples.homepage) 3
     = ["https://crypto.news/news/one/"; "https://crypto.news/news/two/";
        "https://crypto.news/news/three/"]
  /\ (links_loop 3 (anchor_hrefs Samples.latest_div) []).2
     = ["/news/four/"; "https://crypto.news/news/five/"]
  /\ qualifying (anchor_hrefs Samples.latest_div)
     = ["https://crypto.news/news/one/"; "https://crypto.news/news/two/";
        "https://crypto.news/news/three/"; "https://crypto.news/news/four/";
        "https://crypto.news/news/five/"]
  /\ discover (BeautifulSoup Samples.homepage) 3
     = take (Z.to_nat 3) (qualifying (anchor_hrefs Samples.latest_div))
  /\ NoDup (discover (BeautifulSoup Samples.homepage) 3)
  /\ Forall2 (fun x h => get "href" x = Some h)
       (List.filter (fun x => name_in ["a"] x
                              && bool_decide (is_Some (get "href" x)))
                    (descendants Samples.latest_div))
       (anchor_hrefs Samples.latest_div)
  /\ scrape_crypto_news Samples.w0 3 0%nat
     = (Returned (records_from Samples.w0 1%nat
                    (discover (BeautifulSoup Samples.homepage) 3)), 7%nat).
Proof.
  destruct (discovered_urls_bounded (BeautifulSoup Samples.homepage) 3
              Samples.latest_div)
    as (_ & Hnd & _ & Htake & _ & _ & _ & _ & _ & Hanchors & _ & _ & _ & Hrun).
  - vm_compute. reflexivity.
  - lia.
  - split_and!; [vm_compute; reflexivity.. | exact Htake | exact Hnd
                 | exact Hanchors | ].
    destruct (Hrun Samples.w0 0%nat Samples.homepage eq_refl eq_refl)
      as [Hsome _].
    destruct Hsome as (_ & Hres & _); [vm_compute; discriminate|].
    exact Hres.
Defined.

(** C2, as stated, fails where no anchor qualifies: the region of this
    homepage is found and holds one link, a category page; fewer URLs
    than the limit of 3 qualify, namely none, and the function does not
    return them without error but raises. *)
Lemma fewer_than_limit_may_fail :
  (exists sec,
      find_latest_section (BeautifulSoup Samples.homepage_empty_region) = Some sec
      /\ anchor_hrefs sec = ["/category/x/y/"]
      /\ qualifying (anchor_hrefs sec) = []
      /\ Z.of_nat (length (qualifying (anchor_hrefs sec))) < 3)
  /\ discover (BeautifulSoup Samples.homepage_empty_region) 3 = []
  /\ scrape_crypto_news (Samples.serving Samples.homepage_empty_region) 3 0%nat
     = (Raised "Could not find articles. Website structure may have changed.",
        1%nat)
  /\ ~ fewer_than_limit_without_error.
Proof.
  assert (Hsec : exists sec,
             find_latest_section (BeautifulSoup Samples.homepage_empty_region)
             = Some sec
             /\ anchor_hrefs sec = ["/category/x/y/"]
             /\ qualifying (anchor_hrefs sec) = []
             /\ Z.of_nat (length (qualifying (anchor_hrefs sec))) < 3).
  { eexists. split_and!; [vm_compute; reflexivity.. | ]. vm_compute. reflexivity. }
  split_and!; [exact Hsec | vm_compute; reflexivity.. | ].
  intros Hclaim. destruct Hsec as (sec & Hfound & _ & _ & Hfew).
  destruct (Hclaim (Samples.serving Samples.homepage_empty_region) 3 0%nat
              Samples.homepage_empty_region sec) as (arts & t' & Hrun & _);
    [lia | reflexivity | exact Hfound | exact Hfew |].
  vm_compute in Hrun. discriminate Hrun.
Qed.

(** C4. The filter of the loop.  A link's URL is its href, put after the
    base URL when the href starts with "/".  At the link's turn, with
    [article_urls] the URLs accepted so far, this URL is appended (it is
    the next element of the result after [article_urls]) if and only if it
    contains the base URL, has at least 4 "/" characters, is not yet in
    [article_urls], and contains none of /category/, /tag/, /author/, #,
    /buy-crypto/, /events/, /meme-coins/. *)
Theorem url_acceptance_filter limit href rest article_urls :
  let u := full_url href in
  let out := (links_loop limit (href :: rest) article_urls).1 in
  u = (if PyStr.startswith "/" href then "https://crypto.news" ++ href else href)
  /\ ((exists tail, out = (article_urls ++ u :: tail)%list)
      <-> PyStr.contains "https://crypto.news" u = true
          /\ 4 <= PyStr.count "/" u
          /\ (u ∉ article_urls)
          /\ Forall (fun x => PyStr.contains x u = false)
               ["/category/"; "/tag/"; "/author/"; "#";
                "/buy-crypto/"; "/events/"; "/meme-coins/"]).
Proof.
  intros u out. split; [reflexivity|].
  change (_ /\ _ /\ _ /\ _)
    with (PyStr.contains base_url u = true /\ 4 <= PyStr.count "/" u
          /\ (u ∉ article_urls)
          /\ Forall (fun x => PyStr.contains x u = false) excluded).
  rewrite <- valid_article_url_iff.
  unfold out. simpl. fold u.
  destruct (valid_article_url u article_urls) eqn:Hv.
  - split; [done|]. intros _.
    destruct (Z.of_nat (length (article_urls ++ [u])) =? limit); simpl.
    + by exists [].
    + destruct (links_loop_extends limit rest (article_urls ++ [u])%list)
        as [tail ->].
      exists tail. by rewrite <- app_assoc.
  - split; [|done]. intros [tail Hout].
    destruct (links_loop_first limit rest article_urls)
      as [Hsame | (u' & tail' & Hfirst & Hok)].
    + rewrite Hsame in Hout.
      rewrite <- (app_nil_r article_urls) in Hout at 1.
      by apply app_inv_head in Hout.
    + rewrite Hfirst in Hout. apply app_inv_head in Hout.
      injection Hout as -> _. congruence.
Qed.

(** C10. The function does not check [limit].  With [limit <= 0] the
    test [len(article_urls) == limit] is never true after an append, the
    loop visits every anchor, and the discovered list is every qualifying
    URL of the region; the function then goes on to scrape all of them. *)
Theorem nonpositive_limit_returns_all soup limit latest_section :
  find_latest_section soup = Some latest_section ->
  limit <= 0 ->
  let hrefs := anchor_hrefs latest_section in
  links_loop limit hrefs [] = (qualifying hrefs, [])
  /\ discover soup limit = qualifying hrefs
  /\ (forall w t cs,
        fetch w t base_url = Returned cs -> BeautifulSoup cs = soup ->
        qualifying hrefs <> [] ->
        (scrape_crypto_news w limit t).1
        = Returned (records_from w (S t) (qualifying hrefs))).
Proof.
  intros Hsec Hlim hrefs.
  assert (Hloop : links_loop limit hrefs [] = (qualifying hrefs, [])).
  { rewrite links_loop_no_break by (simpl; lia). reflexivity. }
  assert (Hd : discover soup limit = qualifying hrefs).
  { unfold discover. rewrite Hsec. fold hrefs. by rewrite Hloop. }
  split_and!; [exact Hloop | exact Hd |].
  intros w t cs Hfetch Hsoup Hne.
  rewrite scrape_crypto_news_total, Hfetch, Hsoup, Hd.
  by destruct (qualifying hrefs).
Qed.

Lemma nonpositive_limit_returns_all_witness :
  links_loop (-2) (anchor_hrefs Samples.latest_div) []
  = (["https://crypto.news/news/one/"; "https://crypto.news/news/two/";
      "https://crypto.news/news/three/"; "https://crypto.news/news/four/";
      "https://crypto.news/news/five/"], [])
  /\ discover (BeautifulSoup Samples.homepage) (-2)
     = qualifying (anchor_hrefs Samples.latest_div).
Proof.
  destruct (nonpositive_limit_returns_all (BeautifulSoup Samples.homepage) (-2)
              Samples.latest_div) as (Hloop & Hd & _).
  - vm_compute. reflexivity.
  - lia.
  - split; [exact Hloop | exact Hd].
Defined.

(** ** The tree and its queries *)




Lemma cursors_elements l : element <$> cursors l = l.*2.
Proof. induction l as [|[p x] rest IH]; [done|]. simpl. f_equal. exact IH. Qed.

Lemma filter_fmap {A B} (f : A -> B) (t : B -> bool) (l : list A) :
  f <$> List.filter (fun a => t (f a)) l = List.filter t (f <$> l).
Proof.
  induction l as [|a l IH]; [done|]. simpl.
  destruct (t (f a)); simpl; [f_equal|]; exact IH.
Qed.

(** The cursors of [find_all_cursors] stand on the tags [find_all] gives. *)
Lemma find_all_cursors_elements names n :
  element <$> find_all_cursors names n = find_all names any_attrs n.
Proof.
  unfold find_all_cursors, find_all, descendants.
  rewrite (filter_fmap element (name_in names)), cursors_elements.
  apply filter_ext. intros x. by rewrite andb_true_r.
Qed.


(** A loop that leaves at the first hit: [head] of a filter. *)
Lemma head_filter_first {A} (t : A -> bool) (l : list A) :
  (exists before x after,
      l = (before ++ x :: after)%list
      /\ Forall (fun y => t y = false) before
      /\ t x = true
      /\ head (List.filter t l) = Some x)
  \/ (Forall (fun y => t y = false) l /\ head (List.filter t l) = None).
Proof.
  induction l as [|a l IH]; simpl.
  - right. by split.
  - destruct (t a) eqn:Ha.
    + left. exists [], a, l. by split_and!.
    + destruct IH as [(before & x & after & -> & Hb & Hx & Hh) | [Hall Hh]].
      * left. exists (a :: before), x, after. split_and!; try done.
        by constructor.
      * right. split; [by constructor | done].
Qed.


Lemma find_all_cursors_complete names n x :
  x ∈ descendants n -> name_in names x = true ->
  exists c, c ∈ find_all_cursors names n /\ element c = x.
Proof.
  intros Hx Hn.
  assert (H : x ∈ element <$> find_all_cursors names n).
  { rewrite find_all_cursors_elements. unfold find_all.
    apply list_elem_of_In, filter_In. split; [by apply list_elem_of_In|].
    by rewrite Hn. }
  apply list_elem_of_fmap in H as (c & -> & Hc). eauto.
Qed.



(** C6, as the code has it.  Discovery has one failure, not two: when no
    strategy yields a region, and when a region is found but no URL is
    accepted, the function raises the same error, "Could not find
    articles. Website structure may have changed.", right after the
    homepage fetch. *)
Theorem discovery_failure_single_error w limit t cs :
  fetch w t base_url = Returned cs ->
  find_latest_section (BeautifulSoup cs) = None
  \/ (exists sec, find_latest_section (BeautifulSoup cs) = Some sec
                  /\ (links_loop limit (anchor_hrefs sec) []).1 = []) ->
  scrape_crypto_news w limit t
  = (Raised "Could not find articles. Website structure may have changed.", S t).
Proof.
  intros Hfetch Hcase.
  rewrite scrape_crypto_news_total, Hfetch.
  assert (Hd : discover (BeautifulSoup cs) limit = []).
  { unfold discover. destruct Hcase as [-> | (sec & -> & Hurls)]; done. }
  by rewrite Hd.
Qed.

Lemma discovery_failure_single_error_witness :
  scrape_crypto_news (Samples.serving Samples.homepage_no_region) 3 0%nat
  = (Raised "Could not find articles. Website structure may have changed.", 1%nat)
  /\ scrape_crypto_news (Samples.serving Samples.homepage_empty_region) 3 0%nat
     = (Raised "Could not find articles. Website structure may have changed.", 1%nat).
Proof.
  split.
  - apply (discovery_failure_single_error
             (Samples.serving Samples.homepage_no_region) 3 0%nat
             Samples.homepage_no_region); [reflexivity|].
    left. vm_compute. reflexivity.
  - apply (discovery_failure_single_error
             (Samples.serving Samples.homepage_empty_region) 3 0%nat
             Samples.homepage_empty_region); [reflexivity|].
    right. eexists. split; vm_compute; reflexivity.
Defined.

(** C6, as stated, fails: a homepage without a region and a homepage
    whose region holds no acceptable link end in the same error, which is
    neither "no latest section found" nor "no articles found". *)
Lemma discovery_failures_not_distinguished :
  find_latest_section (BeautifulSoup Samples.homepage_no_region) = None
  /\ (exists sec,
        find_latest_section (BeautifulSoup Samples.homepage_empty_region) = Some sec
        /\ (links_loop 3 (anchor_hrefs sec) []).1 = [])
  /\ (scrape_crypto_news (Samples.serving Samples.homepage_no_region) 3 0%nat).1
     = (scrape_crypto_news (Samples.serving Samples.homepage_empty_region) 3 0%nat).1
  /\ (scrape_crypto_news (Samples.serving Samples.homepage_no_region) 3 0%nat).1
     <> Raised "no latest section found"
  /\ (scrape_crypto_news (Samples.serving Samples.homepage_empty_region) 3 0%nat).1
     <> Raised "no articles found"
  /\ ~ AsStated.distinguishes_failures.
Proof.
  assert (H1 : find_latest_section (BeautifulSoup Samples.homepage_no_region) = None)
    by (vm_compute; reflexivity).
  assert (H2 : exists sec,
             find_latest_section (BeautifulSoup Samples.homepage_empty_region)
             = Some sec
             /\ (links_loop 3 (anchor_hrefs sec) []).1 = [])
    by (eexists; split; vm_compute; reflexivity).
  split_and!; try done.
  intros (e1 & e2 & Hne & Hnone & Hempty).
  destruct H2 as (sec & Hsec & Hurls).
  specialize (Hnone (Samples.serving Samples.homepage_no_region) 3 0%nat
                Samples.homepage_no_region eq_refl H1).
  specialize (Hempty (Samples.serving Samples.homepage_empty_region) 3 0%nat
                Samples.homepage_empty_region sec eq_refl Hsec Hurls).
  apply Hne.
  assert (He : @Raised (list article) e1 = Raised e2)
    by (rewrite <- Hnone, <- Hempty; vm_compute; reflexivity).
  by injection He.
Qed.

(** C9. Discovery reads nothing of the world but the homepage it is
    served: two runs of step 1 with the same limit, in any two worlds and
    at any two moments, that are served the same homepage return the same
    list of URLs, in the same order. *)
Theorem discovery_deterministic w1 w2 t1 t2 limit cs :
  fetch w1 t1 base_url = Returned cs ->
  fetch w2 t2 base_url = Returned cs ->
  exists urls,
    (get_article_urls w1 limit t1).1 = Returned urls
    /\ (get_article_urls w2 limit t2).1 = Returned urls
    /\ urls = discover (BeautifulSoup cs) limit.
Proof.
  intros H1 H2. exists (discover (BeautifulSoup cs) limit).
  rewrite !get_article_urls_total, H1, H2. by split_and!.
Qed.

Lemma discovery_deterministic_witness :
  exists urls,
    (get_article_urls Samples.w0 3 0%nat).1 = Returned urls
    /\ (get_article_urls (Samples.serving Samples.homepage) 3 7%nat).1
       = Returned urls
    /\ urls = discover (BeautifulSoup Samples.homepage) 3.
Proof.
  apply (discovery_deterministic Samples.w0 (Samples.serving Samples.homepage)
           0%nat 7%nat 3 Samples.homepage); reflexivity.
Defined.

(** ** Step 2: the fields of an article *)

Lemma find_any_first names n :
  (exists before x after,
      descendants n = (before ++ x :: after)%list
      /\ Forall (fun y => name_in names y = false) before
      /\ name_in names x = true
      /\ find names any_attrs n = Some x)
  \/ (Forall (fun y => name_in names y = false) (descendants n)
      /\ find names any_attrs n = None).
Proof.
  unfold find, find_all.
  rewrite (filter_ext _ (name_in names)) by (intros x; apply andb_true_r).
  apply head_filter_first.
Qed.

Lemma filter_none {A} (t : A -> bool) (l : list A) :
  Forall (fun x => t x = false) l -> List.filter t l = [].
Proof.
  induction 1 as [|x l Hx _ IH]; simpl; [done|]. by rewrite Hx.
Qed.

Lemma get_text_strip_single nm attrs s :
  get_text_strip (Tag nm attrs [NavigableString s])
  = AsStated.trimmed_text (Tag nm attrs [NavigableString s]).
Proof.
  unfold get_text_strip, AsStated.trimmed_text, get_text, all_strings, descendants.
  simpl. by destruct (PyStr.strip s).
Qed.

(** C8, as the code has it.  The title is the text of the first h1 of the
    document, read with [get_text(strip=True)]: the strings below the
    heading, each trimmed, the empty ones dropped, joined with nothing
    between them; it is the empty string when the document has no h1.  The
    content is the join, with a blank line between them and in document
    order, of the texts (read the same way) longer than 50 characters of
    the paragraphs below the first article container; it is empty when
    there is no container or no such paragraph.  For an element that holds
    one string this text is the element's trimmed text, and a document
    with the h1 "Bitcoin Hits $100K" and no article container gives that
    title and an empty content. *)
Theorem field_extraction soup :
  ((exists before h1 after,
       descendants soup = (before ++ h1 :: after)%list
       /\ Forall (fun x => name_in ["h1"] x = false) before
       /\ name_in ["h1"] h1 = true
       /\ extract_title soup = get_text_strip h1)
   \/ (Forall (fun x => name_in ["h1"] x = false) (descendants soup)
       /\ extract_title soup = ""))
  /\ ((exists before article_tag after,
         descendants soup = (before ++ article_tag :: after)%list
         /\ Forall (fun x => name_in ["article"] x = false) before
         /\ name_in ["article"] article_tag = true
         /\ extract_content soup
            = PyStr.join (newline ++ newline)
                (List.filter (fun text => 50 <? PyStr.len text)
                   (get_text_strip
                      <$> List.filter (name_in ["p"]) (descendants article_tag)))
         /\ (Forall (fun text => PyStr.len text <= 50)
               (get_text_strip
                  <$> List.filter (name_in ["p"]) (descendants article_tag)) ->
             extract_content soup = ""))
      \/ (Forall (fun x => name_in ["article"] x = false) (descendants soup)
          /\ extract_content soup = ""))
  /\ (forall n,
        get_text_strip n
        = PyStr.join "" (List.filter PyStr.truthy (PyStr.strip <$> all_strings n)))
  /\ (forall nm attrs s,
        get_text_strip (Tag nm attrs [NavigableString s])
        = PyStr.strip (get_text (Tag nm attrs [NavigableString s])))
  /\ extract_title
       (BeautifulSoup [Tag "h1" ∅ [NavigableString "Bitcoin Hits $100K"]])
     = "Bitcoin Hits $100K"
  /\ extract_content
       (BeautifulSoup [Tag "h1" ∅ [NavigableString "Bitcoin Hits $100K"]])
     = "".
Proof.
  split_and!.
  - unfold extract_title.
    destruct (find_any_first ["h1"] soup)
      as [(before & h1 & after & Hd & Hb & Hh & ->) | [Hall ->]].
    + left. exists before, h1, after. by split_and!.
    + right. by split.
  - unfold extract_content, content_parts.
    destruct (find_any_first ["article"] soup)
      as [(before & art & after & Hd & Hb & Hh & ->) | [Hall ->]].
    + left. exists before, art, after. split_and!; try done.
      * unfold find_all.
        by rewrite (filter_ext _ (name_in ["p"]))
          by (intros x; apply andb_true_r).
      * intros Hshort. unfold find_all.
        rewrite (filter_ext _ (name_in ["p"])) by (intros x; apply andb_true_r).
        rewrite filter_none; [done|].
        eapply Forall_impl; [exact Hshort|]. simpl. intros text Hlen.
        apply Z.ltb_ge. lia.
    + right. by split.
  - reflexivity.
  - apply get_text_strip_single.
  - vm_compute. reflexivity.
  - vm_compute. reflexivity.
Qed.

(** C8, as stated, fails: the title of a heading made of several
    strings is not the heading's trimmed text, the blanks between the
    strings being lost. *)
Lemma title_is_not_trimmed_text :
  extract_title (BeautifulSoup Samples.article_mixed_heading) = "BitcoinHits$100K"
  /\ AsStated.title (BeautifulSoup Samples.article_mixed_heading)
     = "Bitcoin Hits $100K"
  /\ extract_title (BeautifulSoup Samples.article_mixed_heading)
     <> AsStated.title (BeautifulSoup Samples.article_mixed_heading).
Proof.
  split_and!; [vm_compute; reflexivity..|].
  vm_compute. discriminate.
Qed.

(** * Beyond the claims: the rest of the function and its caller *)

(** ** What the function returns *)

Lemma links_loop_prefix_qualifying limit hrefs :
  (links_loop limit hrefs []).1 `prefix_of` qualifying hrefs.
Proof.
  destruct (Z.le_gt_cases limit 0) as [Hle|Hgt].
  - rewrite links_loop_no_break by (simpl; lia). done.
  - rewrite links_loop_urls by (simpl; lia). simpl. apply prefix_take.
Qed.

Lemma discover_prefix_qualifying soup limit :
  exists hrefs, discover soup limit `prefix_of` qualifying hrefs.
Proof.
  unfold discover. destruct (find_latest_section soup) as [sec|].
  - exists (anchor_hrefs sec). apply links_loop_prefix_qualifying.
  - exists []. done.
Qed.

Lemma discover_urls_pass soup limit :
  NoDup (discover soup limit)
  /\ Forall (fun u => passes_filters u = true) (discover soup limit).
Proof.
  destruct (discover_prefix_qualifying soup limit) as (hrefs & k & Hk).
  assert (Hnd : NoDup (qualifying hrefs))
    by (apply (qualifying_from_NoDup hrefs []); constructor).
  rewrite Hk in Hnd. apply NoDup_app in Hnd as (Hnd & _ & _).
  split; [done|]. apply Forall_forall. intros u Hu.
  assert (Hq : u ∈ qualifying hrefs) by (rewrite Hk; apply elem_of_app; by left).
  apply elem_of_qualifying_from in Hq. tauto.
Qed.

Lemma records_from_set w urls : forall t,
  Forall (fun a => scraped_at a <> "") (records_from w t urls).
Proof.
  induction urls as [|u rest IH]; intros t; simpl; constructor; [|apply IH].
  unfold record_at. destruct (fetch w t u); apply isoformat_set.
Qed.

(** X1. Whatever the homepage holds, a list the function returns is not
    empty, names every URL once, and every record in it has a URL that
    contains the base URL, has at least 4 "/" characters and none of the
    excluded substrings, and a time stamp that is set; with [limit >= 1]
    it has at most [limit] records; and the run made one fetch for the
    homepage and one fetch and one clock reading per record. *)
Theorem returned_articles_invariant w limit t arts t' :
  scrape_crypto_news w limit t = (Returned arts, t') ->
  arts <> []
  /\ NoDup (url <$> arts)
  /\ Forall (fun a =>
               PyStr.contains "https://crypto.news" (url a) = true
               /\ 4 <= PyStr.count "/" (url a)
               /\ Forall (fun x => PyStr.contains x (url a) = false)
                    ["/category/"; "/tag/"; "/author/"; "#";
                     "/buy-crypto/"; "/events/"; "/meme-coins/"]
               /\ scraped_at a <> "") arts
  /\ (1 <= limit -> Z.of_nat (length arts) <= limit)
  /\ t' = (S t + 2 * length arts)%nat.
Proof.
  rewrite scrape_crypto_news_total.
  destruct (fetch w t base_url) as [cs|e]; [|discriminate].
  pose proof (discover_urls_pass (BeautifulSoup cs) limit) as [Hnd Hpass].
  destruct (discover_prefix_qualifying (BeautifulSoup cs) limit) as (hrefs & Hpre).
  destruct (discover (BeautifulSoup cs) limit) as [|u rest] eqn:Hd; [discriminate|].
  intros H. injection H as Harts Ht.
  change (records_from w (S t) (u :: rest) = arts) in Harts.
  change ((S t + 2 * length (u :: rest))%nat = t') in Ht.
  subst arts t'.
  assert (Hurls : url <$> records_from w (S t) (u :: rest) = u :: rest)
    by apply records_from_urls.
  split_and!.
  - done.
  - by rewrite Hurls.
  - apply Forall_forall. intros a Ha.
    assert (Hu : url a ∈ u :: rest).
    { rewrite <- Hurls. apply list_elem_of_fmap. eauto. }
    rewrite Forall_forall in Hpass. apply Hpass, passes_filters_iff in Hu.
    destruct Hu as (? & ? & ?). split_and!; try done.
    pose proof (records_from_set w (u :: rest) (S t)) as Hset.
    rewrite Forall_forall in Hset. by apply Hset.
  - intros Hlim. rewrite records_from_length, <- Hd.
    unfold discover. destruct (find_latest_section (BeautifulSoup cs)) as [sec|];
      [|simpl; lia].
    rewrite links_loop_urls by (simpl; lia). simpl.
    rewrite length_take. lia.
  - by rewrite records_from_length.
Qed.

Lemma returned_articles_invariant_witness :
  exists arts t',
    scrape_crypto_news Samples.w0 3 0%nat = (Returned arts, t')
    /\ arts <> []
    /\ NoDup (url <$> arts)
    /\ (1 <= 3 -> Z.of_nat (length arts) <= 3)
    /\ t' = (1 + 2 * length arts)%nat.
Proof.
  eexists _, _. split; [vm_compute; reflexivity|].
  edestruct (returned_articles_invariant Samples.w0 3 0%nat)
    as (H1 & H2 & _ & H4 & H5); [vm_compute; reflexivity|].
  split_and!; [exact H1 | exact H2 | exact H4 | exact H5].
Defined.

(** X2. A larger limit only adds to the end: for [1 <= l1] and a limit
    [l2] that is at least [l1], or is not positive and so bounds nothing,
    the URLs discovered with [l1] are the first of those discovered with
    [l2]. *)
Theorem larger_limit_extends soup l1 l2 :
  1 <= l1 -> l1 <= l2 \/ l2 <= 0 ->
  discover soup l1 `prefix_of` discover soup l2.
Proof.
  intros H1 H2. unfold discover.
  destruct (find_latest_section soup) as [sec|]; [|done].
  rewrite (links_loop_urls l1) by (simpl; lia). simpl.
  rewrite Nat.sub_0_r.
  destruct (Z.le_gt_cases l2 0) as [Hle|Hgt].
  - rewrite links_loop_no_break by (simpl; lia). simpl. apply prefix_take.
  - rewrite (links_loop_urls l2) by (simpl; lia). simpl. rewrite Nat.sub_0_r.
    replace (Z.to_nat l1) with (Z.to_nat l1 `min` Z.to_nat l2)%nat by lia.
    rewrite <- take_take. apply prefix_take.
Qed.

Lemma larger_limit_extends_witness :
  discover (BeautifulSoup Samples.homepage) 2
    `prefix_of` discover (BeautifulSoup Samples.homepage) 4.
Proof.
  apply (larger_limit_extends (BeautifulSoup Samples.homepage) 2 4); lia.
Defined.

(** ** What the function reads *)

Lemma records_from_agree w1 w2 urls : forall t,
  (forall n u, PyStr.contains base_url u = true -> fetch w1 n u = fetch w2 n u) ->
  (forall n, clock w1 n = clock w2 n) ->
  Forall (fun u => PyStr.contains base_url u = true) urls ->
  records_from w1 t urls = records_from w2 t urls.
Proof.
  intros t Hfetch Hclock Hall. revert t.
  induction Hall as [|u rest Hu _ IH]; intros t; simpl; [done|].
  rewrite IH. f_equal. unfold record_at. by rewrite (Hfetch t u Hu), Hclock.
Qed.

(** X3. The function reads the network only at URLs that contain the
    base URL: two worlds with the same clock that answer alike at every
    such URL give the same run, whatever they answer elsewhere. *)
Theorem only_site_pages_are_read w1 w2 limit t :
  (forall n u, PyStr.contains base_url u = true -> fetch w1 n u = fetch w2 n u) ->
  (forall n, clock w1 n = clock w2 n) ->
  scrape_crypto_news w1 limit t = scrape_crypto_news w2 limit t.
Proof.
  intros Hfetch Hclock.
  rewrite !scrape_crypto_news_total.
  rewrite <- (Hfetch t base_url) by (vm_compute; reflexivity).
  destruct (fetch w1 t base_url) as [cs|e]; [|done].
  pose proof (discover_urls_pass (BeautifulSoup cs) limit) as [_ Hpass].
  destruct (discover (BeautifulSoup cs) limit) as [|u rest]; [done|].
  f_equal. f_equal. apply records_from_agree; try done.
  eapply Forall_impl; [exact Hpass|]. simpl.
  intros x Hx. apply passes_filters_iff in Hx. tauto.
Qed.

Lemma only_site_pages_are_read_witness :
  scrape_crypto_news Samples.w0 3 0%nat = scrape_crypto_news w0_foreign 3 0%nat.
Proof.
  apply (only_site_pages_are_read Samples.w0 w0_foreign 3 0%nat).
  - intros n u Hu. unfold w0_foreign. cbn [fetch].
    destruct (String.eqb_spec u "https://example.org/a/b/") as [->|_];
      [|reflexivity].
    vm_compute in Hu. discriminate Hu.
  - reflexivity.
Defined.

(** ** Pages of the first level *)

Lemma count_app c (a b : string) :
  PyStr.count c (a ++ b) = PyStr.count c a + PyStr.count c b.
Proof.
  induction a as [|x a IH]; [done|].
  change (String x a ++ b) with (String x (a ++ b)). simpl. rewrite IH. lia.
Qed.

(** X4. A page of the first level, https://crypto.news/<segment> with no
    "/" in the segment, is never taken for an article: its URL has only 3
    "/" characters, so no discovery holds it, whether the link was
    relative or absolute. *)
Theorem first_level_page_never_discovered soup limit segment :
  PyStr.count "/" segment = 0 ->
  full_url (String "/" segment) = "https://crypto.news/" ++ segment
  /\ (forall article_urls,
        valid_article_url ("https://crypto.news/" ++ segment) article_urls = false)
  /\ "https://crypto.news/" ++ segment ∉ discover soup limit.
Proof.
  intros Hseg.
  assert (Hcount : PyStr.count "/" ("https://crypto.news/" ++ segment) = 3).
  { rewrite count_app, Hseg. reflexivity. }
  assert (Hpass : passes_filters ("https://crypto.news/" ++ segment) = false).
  { apply not_true_iff_false. intros H. apply passes_filters_iff in H. lia. }
  split_and!.
  - reflexivity.
  - intros article_urls. by rewrite valid_article_url_split, Hpass.
  - intros Hin.
    pose proof (discover_urls_pass soup limit) as [_ Hall].
    rewrite Forall_forall in Hall. apply Hall in Hin. congruence.
Qed.

Lemma first_level_page_never_discovered_witness :
  "https://crypto.news/" ++ "markets" ∉ discover (BeautifulSoup Samples.homepage) 3.
Proof.
  apply (first_level_page_never_discovered
           (BeautifulSoup Samples.homepage) 3 "markets").
  reflexivity.
Defined.

(** ** The endpoint *)

Lemma returned_list_bounds w limit t arts t' :
  scrape_crypto_news w limit t = (Returned arts, t') ->
  arts <> [] /\ (1 <= limit -> Z.of_nat (length arts) <= limit).
Proof.
  rewrite scrape_crypto_news_total.
  destruct (fetch w t base_url) as [cs|e]; [|discriminate].
  destruct (discover (BeautifulSoup cs) limit) as [|u rest] eqn:Hd; [discriminate|].
  intros H. injection H as Harts _.
  change (records_from w (S t) (u :: rest) = arts) in Harts. subst arts.
  split; [done|]. intros Hlim. rewrite records_from_length, <- Hd.
  unfold discover. destruct (find_latest_section (BeautifulSoup cs)) as [sec|];
    [|simpl; lia].
  rewrite links_loop_urls by (simpl; lia). simpl.
  rewrite length_take. lia.
Qed.

(** X5. When the endpoint answers, the envelope agrees with its list:
    [success] is true, [count] is the number of articles and is at least
    1, the message names that number, and the time stamp is set; with the
    limit in the range 1-20 the framework lets through, [count] is at most
    the limit, so at most 20. *)
Theorem endpoint_envelope w limit t r t' :
  Api.get_crypto_news w limit t = (inr r, t') ->
  Api.success r = true
  /\ Api.count r = Z.of_nat (length (Api.articles r))
  /\ 1 <= Api.count r
  /\ Api.message r
     = Some ("Successfully scraped " ++ Api.str_of_len (length (Api.articles r))
             ++ " article(s)")
  /\ Api.scraped_at r <> ""
  /\ scrape_crypto_news w limit t = (Returned (Api.articles r), Nat.pred t')
  /\ (1 <= limit <= 20 -> Api.count r <= limit /\ Api.count r <= 20).
Proof.
  unfold Api.get_crypto_news.
  destruct ((1 <=? limit) && (limit <=? 20)); [|discriminate].
  destruct (scrape_crypto_news w limit t) as [[arts|e] t0] eqn:Hrun; [|discriminate].
  intros H. injection H as <- <-. cbn [Api.success Api.count Api.articles
    Api.message Api.scraped_at Nat.pred].
  destruct (returned_list_bounds w limit t arts t0 Hrun) as (Hne & Hlim).
  split_and!; try done.
  - destruct arts; [done | simpl; lia].
  - intros [Hlo Hhi]. specialize (Hlim Hlo). lia.
Qed.

Lemma endpoint_envelope_witness :
  exists r t',
    Api.get_crypto_news Samples.w0 3 0%nat = (inr r, t')
    /\ Api.success r = true
    /\ Api.count r = 3
    /\ Api.message r = Some "Successfully scraped 3 article(s)"
    /\ (1 <= 3 <= 20 -> Api.count r <= 3 /\ Api.count r <= 20).
Proof.
  eexists _, _. split; [vm_compute; reflexivity|].
  edestruct (endpoint_envelope Samples.w0 3 0%nat)
    as (H1 & H2 & _ & H4 & _ & _ & H7); [vm_compute; reflexivity|].
  split_and!; [exact H1 | exact H2 | exact H4 | exact H7].
Defined.

Lemma limit_in_range limit :
  (1 <=? limit) && (limit <=? 20) = true <-> 1 <= limit <= 20.
Proof. rewrite andb_true_iff, !Z.leb_le. tauto. Qed.

(** X6. A request that gets no answer ends in one of two ways.  With
    the limit outside 1-20 it is refused with HTTP 422 and nothing is
    fetched.  With the limit in range the error is the body's: status
    500, the fixed message and [success] false; it comes from step 1
    alone, after the one request for the homepage, and its [error] is
    either "Network error: " with the text of the failed homepage fetch,
    or "Could not find articles. Website structure may have changed."
    when the homepage gave no URL. *)
Theorem endpoint_failure w limit t e t' :
  Api.get_crypto_news w limit t = (inl e, t') ->
  (e = Api.Unprocessable /\ ~ (1 <= limit <= 20) /\ t' = t)
  \/ (exists h,
        e = Api.Failed h
        /\ 1 <= limit <= 20
        /\ Api.status_code h = 500
        /\ Api.detail_success h = false
        /\ Api.detail_message h
           = "Failed to scrape articles. Check if the website is accessible."
        /\ t' = S t
        /\ ((exists err, fetch w t base_url = Raised err
                         /\ Api.detail_error h = "Network error: " ++ err)
            \/ (exists cs, fetch w t base_url = Returned cs
                           /\ discover (BeautifulSoup cs) limit = []
                           /\ Api.detail_error h
                              = "Could not find articles. Website structure may have changed."))).
Proof.
  unfold Api.get_crypto_news.
  destruct ((1 <=? limit) && (limit <=? 20)) eqn:Hrange.
  - apply limit_in_range in Hrange.
    rewrite scrape_crypto_news_total.
    destruct (fetch w t base_url) as [cs|err].
    + destruct (discover (BeautifulSoup cs) limit) as [|u rest] eqn:Hd; [|discriminate].
      intros H. injection H as <- <-. right.
      eexists. split; [reflexivity|]. split; [exact Hrange|].
      split_and!; try done. right. by exists cs.
    + intros H. injection H as <- <-. right.
      eexists. split; [reflexivity|]. split; [exact Hrange|].
      split_and!; try done. left. by exists err.
  - intros H. injection H as <- <-. left. split_and!; try done.
    intros Hin. apply limit_in_range in Hin. congruence.
Qed.

Lemma endpoint_failure_witness :
  (exists h,
      Api.get_crypto_news (Samples.serving Samples.homepage_no_region) 3 0%nat
      = (inl (Api.Failed h), 1%nat)
      /\ Api.status_code h = 500
      /\ Api.detail_error h
         = "Could not find articles. Website structure may have changed.")
  /\ Api.get_crypto_news (Samples.serving Samples.homepage) 21 0%nat
     = (inl Api.Unprocessable, 0%nat)
  /\ Api.get_crypto_news (Samples.serving Samples.homepage) 0 0%nat
     = (inl Api.Unprocessable, 0%nat).
Proof.
  split; [|split; vm_compute; reflexivity].
  destruct (endpoint_failure (Samples.serving Samples.homepage_no_region) 3 0%nat
              (Api.Failed
                 {| Api.status_code := 500; Api.detail_success := false;
                    Api.detail_error :=
                      "Could not find articles. Website structure may have changed.";
                    Api.detail_message :=
                      "Failed to scrape articles. Check if the website is accessible." |})
              1%nat)
    as [(Hbad & _) | (h & Hh & _ & Hstatus & _)].
  - vm_compute. reflexivity.
  - discriminate Hbad.
  - injection Hh as <-. eexists. split_and!; [vm_compute; reflexivity | exact Hstatus | reflexivity].
Defined.

(** X7. Failing articles never fail the request: with the limit in the
    range 1-20, once the homepage was fetched and gave at least one URL,
    the endpoint answers with one article per discovered URL, in order,
    whatever the fetches of the articles do. *)
Theorem endpoint_answers_after_discovery w limit t cs :
  1 <= limit <= 20 ->
  fetch w t base_url = Returned cs ->
  discover (BeautifulSoup cs) limit <> [] ->
  exists r t',
    Api.get_crypto_news w limit t = (inr r, t')
    /\ url <$> Api.articles r = discover (BeautifulSoup cs) limit
    /\ Api.count r = Z.of_nat (length (discover (BeautifulSoup cs) limit))
    /\ t' = (2 + t + 2 * length (discover (BeautifulSoup cs) limit))%nat.
Proof.
  intros Hrange%limit_in_range Hfetch Hne.
  unfold Api.get_crypto_news. rewrite Hrange, scrape_crypto_news_total, Hfetch.
  destruct (discover (BeautifulSoup cs) limit) as [|u rest] eqn:Hd; [done|].
  eexists _, _. split; [reflexivity|].
  cbn [Api.articles Api.count]. split_and!.
  - apply records_from_urls.
  - by rewrite records_from_length.
  - simpl. lia.
Qed.

Lemma endpoint_answers_after_discovery_witness :
  exists r t',
    Api.get_crypto_news (Samples.serving Samples.homepage) 2 0%nat = (inr r, t')
    /\ url <$> Api.articles r = discover (BeautifulSoup Samples.homepage) 2
    /\ title <$> Api.articles r
       = ["Error fetching article"; "Error fetching article"].
Proof.
  edestruct (endpoint_answers_after_discovery
               (Samples.serving Samples.homepage) 2 0%nat Samples.homepage)
    as (r & t' & Hrun & Hurls & _).
  - lia.
  - reflexivity.
  - vm_compute. discriminate.
  - exists r, t'. split; [exact Hrun|]. split; [exact Hurls|].
    vm_compute in Hrun. injection Hrun as <- _. reflexivity.
Defined.

(** ** Strategy 2: the class test *)

Lemma append_cons c (a b : string) : String c a ++ b = String c (a ++ b).
Proof. reflexivity. Qed.

Lemma append_nil_l (b : string) : "" ++ b = b.
Proof. reflexivity. Qed.

Lemma append_nil_r (a : string) : a ++ "" = a.
Proof. induction a as [|c a IH]; [done|]. by rewrite append_cons, IH. Qed.

Lemma append_assoc (a b c : string) : (a ++ b) ++ c = a ++ (b ++ c).
Proof. induction a as [|x a IH]; [done|]. by rewrite !append_cons, IH. Qed.

Lemma startswith_skip c x :
  char_free c x = true ->
  forall a b, PyStr.startswith x (a ++ String c b) = PyStr.startswith x a.
Proof.
  induction x as [|x0 xs IH]; intros Hfree a b.
  - by destruct a.
  - simpl in Hfree. apply andb_true_iff in Hfree as [Hx0 Hxs].
    apply negb_true_iff in Hx0.
    destruct a as [|a0 a].
    + rewrite append_nil_l. simpl. by rewrite Hx0.
    + rewrite append_cons. simpl. destruct (Ascii.eqb x0 a0); [by apply IH | done].
Qed.

Lemma contains_nil x : x <> "" -> PyStr.contains x "" = false.
Proof. by destruct x. Qed.

(** An occurrence of [x] cannot run over a character that [x] lacks. *)
Lemma contains_straddle c x :
  x <> "" -> char_free c x = true ->
  forall a b,
    PyStr.contains x (a ++ String c b) = PyStr.contains x a || PyStr.contains x b.
Proof.
  intros Hne Hfree a b. induction a as [|a0 a IH].
  - rewrite append_nil_l, contains_nil by done.
    change (PyStr.contains x (String c b))
      with (PyStr.startswith x (String c b) || PyStr.contains x b).
    rewrite <- (append_nil_l (String c b)), startswith_skip by done.
    by destruct x.
  - rewrite append_cons.
    change (PyStr.contains x (String a0 (a ++ String c b)))
      with (PyStr.startswith x (String a0 (a ++ String c b))
            || PyStr.contains x (a ++ String c b)).
    change (PyStr.contains x (String a0 a))
      with (PyStr.startswith x (String a0 a) || PyStr.contains x a).
    rewrite IH, <- append_cons, startswith_skip by done.
    by rewrite orb_assoc.
Qed.

Lemma no_space_char_free x c :
  no_space x = true -> PyStr.isspace c = true -> char_free c x = true.
Proof.
  induction x as [|x0 xs IH]; [done|]. simpl.
  intros [Hx0 Hxs]%andb_true_iff Hc. rewrite IH by done.
  rewrite andb_true_r. apply negb_true_iff.
  destruct (Ascii.eqb_spec x0 c) as [->|]; [|done].
  rewrite Hc in Hx0. done.
Qed.

(** A string without white space occurs in a text exactly when it occurs
    in one of the text's fields. *)
Lemma contains_fields_aux x :
  x <> "" -> no_space x = true ->
  forall s cur,
    existsb (PyStr.contains x) (PyStr.fields_aux cur s) = PyStr.contains x (cur ++ s).
Proof.
  intros Hne Hns. induction s as [|c s IH]; intros cur.
  - rewrite append_nil_r. destruct cur; simpl.
    + by destruct x.
    + by rewrite orb_false_r.
  - cbn [PyStr.fields_aux]. destruct (PyStr.isspace c) eqn:Hc.
    + rewrite contains_straddle by (by try apply no_space_char_free).
      destruct cur as [|c0 cur].
      * rewrite IH, append_nil_l, contains_nil by done. done.
      * cbn [existsb]. by rewrite IH, append_nil_l.
    + rewrite IH, append_assoc. reflexivity.
Qed.

Lemma contains_fields x s :
  x <> "" -> no_space x = true ->
  existsb (PyStr.contains x) (PyStr.fields s) = PyStr.contains x s.
Proof. intros Hne Hns. unfold PyStr.fields. by rewrite contains_fields_aux. Qed.

Lemma contains_join x c ts :
  x <> "" -> char_free c x = true ->
  PyStr.contains x (PyStr.join (String c "") ts) = existsb (PyStr.contains x) ts.
Proof.
  intros Hne Hfree. induction ts as [|t ts IH].
  - by apply contains_nil.
  - destruct ts as [|t' ts].
    + simpl. by rewrite orb_false_r.
    + change (PyStr.join (String c "") (t :: t' :: ts))
        with (t ++ String c (PyStr.join (String c "") (t' :: ts))).
      rewrite contains_straddle, IH by done. reflexivity.
Qed.

Lemma isspace_lower_char c : PyStr.isspace (PyStr.lower_char c) = PyStr.isspace c.
Proof. destruct c as [[] [] [] [] [] [] [] []]; reflexivity. Qed.

Lemma lower_app a b : PyStr.lower (a ++ b) = PyStr.lower a ++ PyStr.lower b.
Proof.
  induction a as [|c a IH]; [done|]. rewrite append_cons. simpl. by rewrite IH.
Qed.

Lemma lower_fields_aux s : forall cur,
  PyStr.fields_aux (PyStr.lower cur) (PyStr.lower s)
  = PyStr.lower <$> PyStr.fields_aux cur s.
Proof.
  induction s as [|c s IH]; intros cur.
  - by destruct cur.
  - cbn [PyStr.lower PyStr.fields_aux]. rewrite isspace_lower_char.
    destruct (PyStr.isspace c).
    + destruct cur; cbn [PyStr.lower]; [apply (IH "") |].
      rewrite fmap_cons. f_equal. apply (IH "").
    + rewrite <- IH, lower_app. reflexivity.
Qed.

Lemma lower_join sep ts :
  PyStr.lower (PyStr.join sep ts)
  = PyStr.join (PyStr.lower sep) (PyStr.lower <$> ts).
Proof.
  induction ts as [|t ts IH]; [done|].
  destruct ts as [|t' ts]; [done|].
  change (PyStr.join sep (t :: t' :: ts))
    with (t ++ sep ++ PyStr.join sep (t' :: ts)).
  rewrite !lower_app, IH. reflexivity.
Qed.

Lemma existsb_fmap {A B} (f : A -> B) (t : B -> bool) (l : list A) :
  existsb t (f <$> l) = existsb (fun a => t (f a)) l.
Proof. induction l as [|a l IH]; [done|]. simpl. by rewrite <- IH. Qed.

Lemma existsb_pointwise {A} (f g : A -> bool) (l : list A) :
  (forall a, f a = g a) -> existsb f l = existsb g l.
Proof. intros H. induction l as [|a l IH]; [done|]. simpl. by rewrite H, IH. Qed.

(** The test of strategy 2 on a tag is the plain test on the text of its
    class attribute. *)
Lemma class_matches_latest n :
  class_matches class_has_latest n = class_mentions_latest n.
Proof.
  unfold class_matches, class_mentions_latest.
  destruct (get "class" n) as [v|]; [|done].
  assert (Htruthy : forall c,
             class_has_latest (Some c) = PyStr.contains "latest" (PyStr.lower c)).
  { intros [|c0 c]; reflexivity. }
  rewrite (existsb_pointwise _ (fun x => PyStr.contains "latest" (PyStr.lower x)))
    by (intros; apply Htruthy).
  rewrite Htruthy, lower_join, (contains_join "latest" " ") by done.
  rewrite existsb_fmap, orb_diag.
  rewrite <- (existsb_fmap PyStr.lower (PyStr.contains "latest")).
  unfold PyStr.fields. rewrite <- (lower_fields_aux v "").
  by apply contains_fields_aux.
Qed.

(** X8. Strategy 2 takes the first section or div, in document order,
    whose class attribute text contains "latest" in any letter case: the
    library's test of each class value and of the values joined comes to
    this one test on the attribute.  When strategy 1 found nothing, that
    tag is the region; when no tag passes, the region is left to
    strategy 3. *)
Theorem strategy2_first_class_match soup :
  (exists before sec after,
      descendants soup = (before ++ sec :: after)%list
      /\ Forall (fun x => name_in ["section"; "div"] x && class_mentions_latest x
                          = false) before
      /\ name_in ["section"; "div"] sec = true
      /\ (exists v, get "class" sec = Some v
                    /\ PyStr.contains "latest" (PyStr.lower v) = true)
      /\ strategy2 soup = Some sec
      /\ (strategy1 soup = None -> find_latest_section soup = Some sec))
  \/ (Forall (fun x => name_in ["section"; "div"] x && class_mentions_latest x
                       = false) (descendants soup)
      /\ strategy2 soup = None
      /\ (strategy1 soup = None -> find_latest_section soup = strategy3 soup)).
Proof.
  unfold find_latest_section, latest_section_with, strategy2, find, find_all.
  rewrite (filter_ext _ (fun x => name_in ["section"; "div"] x
                                  && class_mentions_latest x))
    by (intros x; by rewrite class_matches_latest).
  destruct (head_filter_first
              (fun x => name_in ["section"; "div"] x && class_mentions_latest x)
              (descendants soup))
    as [(before & sec & after & Hd & Hb & Hsec & ->) | [Hall ->]].
  - left. exists before, sec, after.
    apply andb_true_iff in Hsec as [Hname Hclass].
    split_and!; try done.
    + unfold class_mentions_latest in Hclass.
      destruct (get "class" sec) as [v|]; [eauto | done].
    + by intros ->.
  - right. split_and!; try done. by intros ->.
Qed.

(** ** Strategy 3: the heading and what follows it *)






(** ** Step 2: summary, date and content *)

Lemma join_length_head sep p rest :
  (String.length p <= String.length (PyStr.join sep (p :: rest)))%nat.
Proof.
  destruct rest as [|q rest]; [done|].
  change (PyStr.join sep (p :: q :: rest)) with (p ++ sep ++ PyStr.join sep (q :: rest)).
  rewrite string_app_length. lia.
Qed.

(** X10. The summary is read from the first meta tag named "description"
    in document order and from no other: it is that tag's content
    attribute, or the empty string when the attribute is missing, and the
    empty string when the document has no such tag.  The date is read
    from the first time tag: its datetime attribute when that is present
    and not empty, else the tag's text, and the empty string without a
    time tag. *)
Theorem summary_and_date_extraction soup :
  ((exists before meta_desc after,
       descendants soup = (before ++ meta_desc :: after)%list
       /\ Forall (fun x => is_meta_description x = false) before
       /\ is_meta_description meta_desc = true
       /\ extract_summary soup = default "" (get "content" meta_desc))
   \/ (Forall (fun x => is_meta_description x = false) (descendants soup)
       /\ extract_summary soup = ""))
  /\ ((exists before time_tag after,
         descendants soup = (before ++ time_tag :: after)%list
         /\ Forall (fun x => name_in ["time"] x = false) before
         /\ name_in ["time"] time_tag = true
         /\ extract_date soup
            = match get "datetime" time_tag with
              | Some (String c d) => String c d
              | _ => get_text_strip time_tag
              end)
      \/ (Forall (fun x => name_in ["time"] x = false) (descendants soup)
          /\ extract_date soup = "")).
Proof.
  split.
  - unfold extract_summary, find, find_all.
    destruct (head_filter_first is_meta_description (descendants soup))
      as [(before & m & after & Hd & Hb & Hm & Hh) | [Hall Hh]];
      unfold is_meta_description in Hh; rewrite Hh.
    + left. exists before, m, after. split_and!; try done.
      by destruct (get "content" m) as [[|c v]|].
    + right. by split.
  - unfold extract_date.
    destruct (find_any_first ["time"] soup)
      as [(before & tm & after & Hd & Hb & Hh & ->) | [Hall ->]].
    + left. exists before, tm, after. split_and!; try done.
      by destruct (get "datetime" tm) as [[|c v]|].
    + right. by split.
Qed.

(** X11. The content of a parsed article is never a short text: it is
    empty, or longer than 50 characters, and it is empty exactly when no
    paragraph of the article container qualified. *)
Theorem content_empty_or_long soup :
  (extract_content soup = "" \/ 50 < PyStr.len (extract_content soup))
  /\ (extract_content soup = "" <-> content_parts soup = []).
Proof.
  unfold extract_content.
  assert (Hlong : Forall (fun text => 50 < PyStr.len text) (content_parts soup)).
  { unfold content_parts. destruct (find ["article"] any_attrs soup); [|done].
    apply Forall_forall. intros text Hin.
    apply list_elem_of_In, filter_In in Hin as [_ Hin]. by apply Z.ltb_lt. }
  destruct (content_parts soup) as [|p rest]; [by split; [left|]|].
  apply Forall_cons in Hlong as [Hp _].
  pose proof (join_length_head (newline ++ newline) p rest) as Hlen.
  unfold PyStr.len in *.
  split.
  - right. lia.
  - split; [|done]. intros Hempty. rewrite Hempty in Hlen. simpl in Hlen. lia.
Qed.

(** ** When no region is found *)

Lemma strategy1_loop_none headings :
  strategy1_loop headings = None
  <-> Forall (fun c => text_is_latest (element c) = false) headings.
Proof.
  induction headings as [|c rest IH]; simpl.
  - split; [constructor | done].
  - destruct (text_is_latest (element c)) eqn:Hc.
    + split; [done|]. intros H. apply Forall_cons in H as [H _].
      simpl in H. congruence.
    + rewrite IH. split; [by constructor | by intros [_ ?]%Forall_cons].
Qed.

Lemma head_filter_none {A} (t : A -> bool) (l : list A) :
  head (List.filter t l) = None <-> Forall (fun x => t x = false) l.
Proof.
  induction l as [|a l IH]; simpl.
  - split; [constructor | done].
  - destruct (t a) eqn:Ha; simpl.
    + split; [done|]. intros H. apply Forall_cons in H as [H _]. congruence.
    + rewrite IH. split; [by constructor | by intros [_ ?]%Forall_cons].
Qed.

Lemma strategy1_none soup :
  strategy1 soup = None
  <-> Forall (fun x => name_in ["h1"; "h2"; "h3"; "div"] x && text_is_latest x
                       = false) (descendants soup).
Proof.
  unfold strategy1. rewrite strategy1_loop_none, !Forall_forall. split.
  - intros H x Hx. destruct (name_in _ x) eqn:Hn; [|done]. simpl.
    destruct (find_all_cursors_complete _ _ _ Hx Hn) as (c & Hc & <-).
    by apply H.
  - intros H c Hc.
    assert (Hel : element c ∈ element <$> find_all_cursors ["h1"; "h2"; "h3"; "div"] soup)
      by (apply list_elem_of_fmap; eauto).
    rewrite find_all_cursors_elements in Hel. unfold find_all in Hel.
    apply list_elem_of_In, filter_In in Hel as [Hin Hn].
    apply list_elem_of_In in Hin. specialize (H _ Hin).
    rewrite andb_true_r in Hn. by rewrite Hn in H.
Qed.

(** X12. The function finds no region exactly when no h1, h2, h3 or div
    of the homepage has the text "latest", no section or div has a class
    attribute that mentions "latest", and strategy 3 gives nothing; it
    then discovers no URL, whatever the limit. *)
Theorem no_region_iff soup :
  (find_latest_section soup = None
   <-> Forall (fun x => name_in ["h1"; "h2"; "h3"; "div"] x && text_is_latest x
                        = false) (descendants soup)
       /\ Forall (fun x => name_in ["section"; "div"] x && class_mentions_latest x
                           = false) (descendants soup)
       /\ strategy3 soup = None)
  /\ (find_latest_section soup = None -> forall limit, discover soup limit = []).
Proof.
  split.
  - rewrite <- strategy1_none.
    assert (H2 : strategy2 soup = None
                 <-> Forall (fun x => name_in ["section"; "div"] x
                                      && class_mentions_latest x = false)
                            (descendants soup)).
    { unfold strategy2, find, find_all.
      rewrite (filter_ext _ (fun x => name_in ["section"; "div"] x
                                      && class_mentions_latest x))
        by (intros x; by rewrite class_matches_latest).
      apply head_filter_none. }
    rewrite <- H2. unfold find_latest_section, latest_section_with.
    destruct (strategy1 soup), (strategy2 soup), (strategy3 soup);
      split; try done; intros (? & ? & ?); done.
  - intros Hnone limit. unfold discover. by rewrite Hnone.
Qed.

(** ** The work of one request *)

(** X13. With the limit in the range 1-20 that the endpoint lets
    through, a run fetches the homepage and at most 20 articles: it ends
    after one effect when step 1 fails, and after one fetch and one clock
    reading per article otherwise. *)
Theorem requests_bounded w limit t :
  1 <= limit <= 20 ->
  exists k, (k <= 20)%nat
            /\ Z.of_nat k <= limit
            /\ (scrape_crypto_news w limit t).2 = (S t + 2 * k)%nat
            /\ (forall arts, (scrape_crypto_news w limit t).1 = Returned arts ->
                             length arts = k).
Proof.
  intros [Hlo Hhi].
  destruct (scrape_crypto_news w limit t) as [[arts|e] t'] eqn:Hrun.
  - destruct (returned_list_bounds w limit t arts t' Hrun) as [_ Hlim].
    specialize (Hlim Hlo).
    exists (length arts). split_and!; [lia | lia | | by intros ? [= <-]].
    rewrite scrape_crypto_news_total in Hrun.
    destruct (fetch w t base_url) as [cs|e]; [|discriminate].
    destruct (discover (BeautifulSoup cs) limit) as [|u rest]; [discriminate|].
    injection Hrun as Harts <-.
    change (records_from w (S t) (u :: rest) = arts) in Harts. subst arts.
    by rewrite records_from_length.
  - exists 0%nat. split_and!; [lia | lia | | done].
    rewrite scrape_crypto_news_total in Hrun.
    destruct (fetch w t base_url) as [cs|e'].
    + destruct (discover (BeautifulSoup cs) limit) as [|u rest]; [|discriminate].
      injection Hrun as _ <-. simpl. lia.
    + injection Hrun as _ <-. simpl. lia.
Qed.

Lemma requests_bounded_witness :
  exists k, (k <= 20)%nat
            /\ Z.of_nat k <= 3
            /\ (scrape_crypto_news Samples.w0 3 0%nat).2 = (1 + 2 * k)%nat.
Proof.
  destruct (requests_bounded Samples.w0 3 0%nat) as (k & H1 & H2 & H3 & _); [lia|].
  exists k. split_and!; [exact H1 | exact H2 | exact H3].
Defined.
